(** * AlarmBoard: the alarm table component and its helpers

    A shallow embedding of [src/lib/api.ts] and of the two variants of
    [src/alarms/Alarms.tsx]: the two-backend component (module [Alarms])
    and the single-backend one (module [Single]).

    Layout: the JavaScript built-ins the code calls (module [JS]), the
    host-dependent built-ins (class [Platform]), the helpers of
    [api.ts], the asynchronous fetch layer, the component state and its
    handlers, and then the properties. *)

From Stdlib Require Import ZArith String Ascii List Bool Lia.
From Stdlib Require Import Decimal DecimalString.
From stdpp Require Import gmap strings.
Import ListNotations.

Local Open Scope string_scope.
Local Open Scope Z_scope.

(** ** JavaScript built-ins used by the component *)

Module JS.

(** *** Strings

    A JS string is modelled by the sequence of its UTF-8 bytes; only
    the ASCII white space characters are recognised by [trim]. *)

Definition dquote : ascii := ascii_of_nat 34.

Definition is_ws (c : ascii) : bool :=
  let n := nat_of_ascii c in
  (Nat.eqb n 32 || Nat.eqb n 9 || Nat.eqb n 10 || Nat.eqb n 11
   || Nat.eqb n 12 || Nat.eqb n 13)%bool.

Fixpoint trimStartL (l : list ascii) : list ascii :=
  match l with
  | c :: l' => if is_ws c then trimStartL l' else l
  | [] => []
  end.

Definition trimL (l : list ascii) : list ascii :=
  rev (trimStartL (rev (trimStartL l))).

Definition trimStart (s : string) : string :=
  string_of_list_ascii (trimStartL (list_ascii_of_string s)).

Definition trim (s : string) : string :=
  string_of_list_ascii (trimL (list_ascii_of_string s)).

(** [h.includes(n)] *)
Fixpoint includes (h n : string) : bool :=
  if String.prefix n h then true
  else match h with
       | EmptyString => false
       | String _ h' => includes h' n
       end.

(** [s.endsWith(suffix)] *)
Definition endsWith (s suffix : string) : bool :=
  String.prefix (string_of_list_ascii (rev (list_ascii_of_string suffix)))
                (string_of_list_ascii (rev (list_ascii_of_string s))).

(** [s.replace(c, d)] with one-character string arguments: only the
    first occurrence is replaced. *)
Fixpoint replace (s : string) (c d : ascii) : string :=
  match s with
  | EmptyString => EmptyString
  | String x s' => if Ascii.eqb x c then String d s' else String x (replace s' c d)
  end.

(** [s.replaceAll(c, '')] with a one-character pattern. *)
Fixpoint removeAll (s : string) (c : ascii) : string :=
  match s with
  | EmptyString => EmptyString
  | String x s' => if Ascii.eqb x c then removeAll s' c else String x (removeAll s' c)
  end.

(** A string is truthy when it is not empty. *)
Definition truthy (s : string) : bool :=
  match s with EmptyString => false | _ => true end.

(** *** Numbers

    A finite number is modelled by the decimal [m * 10^e] it denotes;
    the rounding of literals and of differences to the nearest double is
    not modelled, and there is one zero.  Equality, the sign of a
    difference and the printing of integers below 2^53 agree with
    IEEE doubles. *)

Inductive number : Type :=
| NaN
| Infinity (neg : bool)
| Finite (m e : Z).

Fixpoint strip0 (fuel : nat) (m e : Z) : Z * Z :=
  match fuel with
  | O => (m, e)
  | S f => if (m mod 10 =? 0) then strip0 f (m / 10) (e + 1) else (m, e)
  end.

(** canonical form: no trailing zero in the mantissa, zero is [0e0] *)
Definition mkFinite (m e : Z) : number :=
  if m =? 0 then Finite 0 0
  else let '(m', e') := strip0 (S (Z.to_nat (Z.log2 (Z.abs m)))) m e in
       Finite m' e'.

Definition ofZ (z : Z) : number := mkFinite z 0.

Definition align (m1 e1 m2 e2 : Z) : Z * Z * Z :=
  let e := Z.min e1 e2 in
  (m1 * 10 ^ (e1 - e), m2 * 10 ^ (e2 - e), e).

Definition isNaN (x : number) : bool :=
  match x with NaN => true | _ => false end.

Definition isFiniteNum (x : number) : bool :=
  match x with Finite _ _ => true | _ => false end.

(** [x - y] *)
Definition sub (x y : number) : number :=
  match x, y with
  | NaN, _ | _, NaN => NaN
  | Infinity a, Infinity b => if Bool.eqb a b then NaN else Infinity a
  | Infinity a, Finite _ _ => Infinity a
  | Finite _ _, Infinity b => Infinity (negb b)
  | Finite m1 e1, Finite m2 e2 =>
      let '(a, b, e) := align m1 e1 m2 e2 in mkFinite (a - b) e
  end.

(** [x * y] *)
Definition mul (x y : number) : number :=
  match x, y with
  | NaN, _ | _, NaN => NaN
  | Infinity a, Infinity b => Infinity (xorb a b)
  | Infinity a, Finite m _ | Finite m _, Infinity a =>
      if m =? 0 then NaN else Infinity (xorb a (m <? 0))
  | Finite m1 e1, Finite m2 e2 => mkFinite (m1 * m2) (e1 + e2)
  end.

(** three-way comparison of two numbers, [None] when one is [NaN] *)
Definition cmp (x y : number) : option comparison :=
  match x, y with
  | NaN, _ | _, NaN => None
  | Infinity a, Infinity b =>
      Some (if Bool.eqb a b then Eq else if a then Lt else Gt)
  | Infinity a, Finite _ _ => Some (if a then Lt else Gt)
  | Finite _ _, Infinity b => Some (if b then Gt else Lt)
  | Finite m1 e1, Finite m2 e2 =>
      let '(a, b, _) := align m1 e1 m2 e2 in Some (a ?= b)
  end.

(** [x === y] on numbers *)
Definition strictEq (x y : number) : bool :=
  match cmp x y with Some Eq => true | _ => false end.

(** [x >= y] and [x <= y] *)
Definition geq (x y : number) : bool :=
  match cmp x y with Some Eq | Some Gt => true | _ => false end.
Definition leq (x y : number) : bool :=
  match cmp x y with Some Eq | Some Lt => true | _ => false end.

Definition isZero (x : number) : bool := strictEq x (Finite 0 0).

(** *** Reading a number: [Number(s)] and [parseFloat(s)] *)

Definition code (c : ascii) : Z := Z.of_nat (nat_of_ascii c).

Definition digitVal (c : ascii) : option Z :=
  let n := code c in
  if ((48 <=? n) && (n <=? 57))%bool then Some (n - 48) else None.

Definition hexVal (c : ascii) : option Z :=
  let n := code c in
  if ((48 <=? n) && (n <=? 57))%bool then Some (n - 48)
  else if ((97 <=? n) && (n <=? 102))%bool then Some (n - 87)
  else if ((65 <=? n) && (n <=? 70))%bool then Some (n - 55)
  else None.

Definition octVal (c : ascii) : option Z :=
  let n := code c in
  if ((48 <=? n) && (n <=? 55))%bool then Some (n - 48) else None.

Definition binVal (c : ascii) : option Z :=
  let n := code c in
  if ((48 <=? n) && (n <=? 49))%bool then Some (n - 48) else None.

Fixpoint scanDigits (val : ascii -> option Z) (l : list ascii)
  : list Z * list ascii :=
  match l with
  | c :: l' =>
      match val c with
      | Some d => let '(ds, r) := scanDigits val l' in (d :: ds, r)
      | None => ([], l)
      end
  | [] => ([], [])
  end.

Definition digitsVal (base : Z) (ds : list Z) : Z :=
  fold_left (fun acc d => acc * base + d) ds 0.

Fixpoint stripPrefix (p l : list ascii) : option (list ascii) :=
  match p, l with
  | [], _ => Some l
  | a :: p', b :: l' => if Ascii.eqb a b then stripPrefix p' l' else None
  | _ :: _, [] => None
  end.

Definition scanSign (l : list ascii) : bool * list ascii :=
  match l with
  | c :: r => if Ascii.eqb c "+" then (false, r)
              else if Ascii.eqb c "-" then (true, r)
              else (false, l)
  | [] => (false, l)
  end.

(** the exponent part is consumed only when it has a digit *)
Definition scanExponent (l : list ascii) : Z * list ascii :=
  match l with
  | c :: r =>
      if (Ascii.eqb c "e" || Ascii.eqb c "E")%bool then
        let '(neg, r1) := scanSign r in
        let '(ds, r2) := scanDigits digitVal r1 in
        match ds with
        | [] => (0, l)
        | _ => ((if neg then - digitsVal 10 ds else digitsVal 10 ds), r2)
        end
      else (0, l)
  | [] => (0, l)
  end.

(** the longest prefix of [l] that is a StrDecimalLiteral, with its
    value and the rest of the input *)
Definition scanDecimal (l : list ascii) : option (number * list ascii) :=
  let '(neg, l1) := scanSign l in
  match stripPrefix (list_ascii_of_string "Infinity") l1 with
  | Some r => Some (Infinity neg, r)
  | None =>
      let '(ip, l2) := scanDigits digitVal l1 in
      let '(fp, l3) :=
        match l2 with
        | c :: r =>
            if Ascii.eqb c "." then
              let '(fp, r') := scanDigits digitVal r in
              match ip, fp with
              | [], [] => ([], l2)
              | _, _ => (fp, r')
              end
            else ([], l2)
        | [] => ([], l2)
        end in
      match (ip ++ fp)%list with
      | [] => None
      | ds =>
          let '(ex, l4) := scanExponent l3 in
          let m := digitsVal 10 ds in
          Some (mkFinite (if neg then - m else m) (ex - Z.of_nat (List.length fp)), l4)
      end
  end.

(** [0x..], [0o..], [0b..]: the whole input must be digits of the radix *)
Definition scanRadix (l : list ascii) : option number :=
  match l with
  | z :: x :: r =>
      if Ascii.eqb z "0" then
        let lit (val : ascii -> option Z) (base : Z) :=
          match scanDigits val r with
          | (d :: ds, []) => Some (ofZ (digitsVal base (d :: ds)))
          | _ => None
          end in
        if (Ascii.eqb x "x" || Ascii.eqb x "X")%bool then lit hexVal 16
        else if (Ascii.eqb x "o" || Ascii.eqb x "O")%bool then lit octVal 8
        else if (Ascii.eqb x "b" || Ascii.eqb x "B")%bool then lit binVal 2
        else None
      else None
  | _ => None
  end.

(** [Number(s)] *)
Definition Number (s : string) : number :=
  match trimL (list_ascii_of_string s) with
  | [] => Finite 0 0
  | l =>
      match scanRadix l with
      | Some v => v
      | None =>
          match scanDecimal l with
          | Some (v, []) => v
          | _ => NaN
          end
      end
  end.

(** [parseFloat(s)] *)
Definition parseFloat (s : string) : number :=
  match scanDecimal (trimStartL (list_ascii_of_string s)) with
  | Some (v, _) => v
  | None => NaN
  end.

(** *** Printing a number: [String(x)] *)

Definition natToString (n : nat) : string :=
  NilEmpty.string_of_uint (Nat.to_uint n).

Definition posZToString (z : Z) : string :=
  NilEmpty.string_of_uint (N.to_uint (Z.to_N z)).

Fixpoint zeros (n : nat) : string :=
  match n with O => EmptyString | S n' => String "0" (zeros n') end.

Definition unsignedToString (m e : Z) : string :=
  let s := posZToString m in
  let k := Z.of_nat (String.length s) in
  let n := k + e in
  if ((k <=? n) && (n <=? 21))%bool then s ++ zeros (Z.to_nat (n - k))
  else if ((0 <? n) && (n <=? 21))%bool then
    substring 0 (Z.to_nat n) s ++ "." ++ substring (Z.to_nat n) (Z.to_nat (k - n)) s
  else if ((-6 <? n) && (n <=? 0))%bool then
    "0." ++ zeros (Z.to_nat (- n)) ++ s
  else
    let ex := n - 1 in
    let exs := (if ex <? 0 then "-" else "+") ++ posZToString (Z.abs ex) in
    if k =? 1 then s ++ "e" ++ exs
    else substring 0 1 s ++ "." ++ substring 1 (Z.to_nat (k - 1)) s ++ "e" ++ exs.

Definition toString (x : number) : string :=
  match x with
  | NaN => "NaN"
  | Infinity neg => if neg then "-Infinity" else "Infinity"
  | Finite m e =>
      match mkFinite m e with
      | Finite m' e' =>
          if m' =? 0 then "0"
          else if m' <? 0 then "-" ++ unsignedToString (- m') e'
          else unsignedToString m' e'
      | _ => "NaN"
      end
  end.

(** *** Values of unknown type

    What a field of a decoded JSON payload may hold at run time,
    whatever its declared type. *)

Inductive value : Type :=
| VUndefined
| VNull
| VBool (b : bool)
| VNum (x : number)
| VStr (s : string).

(** [Number.isFinite(v)]: no coercion, only finite numbers qualify *)
Definition Number_isFinite (v : value) : bool :=
  match v with VNum x => isFiniteNum x | _ => false end.

End JS.

(** ** Host-dependent built-ins

    What depends on the browser's locale, time zone and JSON decoder is
    taken as given: the component is verified for every host. *)

Class Platform : Type := {
  (** [s.toLowerCase()] *)
  toLowerCase : string -> string;
  (** [a.localeCompare(b)] *)
  localeCompare : string -> string -> JS.number;
  (** [new Date(s).getTime()] *)
  Date_getTime : string -> JS.number;
  (** [new Date(iso).toLocaleString('pt-BR', {...})] with the options
      of [formatDateUTCToLocal] *)
  Date_toLocaleString_ptBR : string -> string;
  (** [String(JSON.parse(raw))], [None] when [JSON.parse] throws *)
  JSON_parse_String : string -> option string
}.

(** ** src/lib/api.ts *)

Module Api.

Record LoginResponse : Type := { accessToken : string }.

Record TriggerValue : Type := {
  value : option string;
  units : option string
}.

(** [name] is tested for falsiness and [priority] for finiteness by the
    component, so the model lets the first be absent and the second be
    any decoded value. *)
Record AlarmDTO : Type := {
  id : string;
  itemReference : string;
  name : option string;
  creationTime : string;
  isAcknowledged : bool;
  isDiscarded : bool;
  priority : JS.value;
  triggerValue : option TriggerValue
}.

Record AlarmsResponse : Type := { total : nat; items : list AlarmDTO }.

Section Helpers.
Context `{Platform}.

Definition normalizeValue (raw : option string) : string :=
  match raw with
  | None => ""
  | Some r =>
      if JS.truthy r then
        match JSON_parse_String r with
        | Some s => s
        | None => JS.removeAll r JS.dquote
        end
      else ""
  end.

Definition mapUnit (units : option string) : string :=
  match units with
  | None => ""
  | Some u =>
      if JS.truthy u then
        if JS.endsWith u ".degF" then "°F"
        else if JS.endsWith u ".degC" then "°C"
        else u
      else ""
  end.

Definition formatDateUTCToLocal (iso : string) : string :=
  Date_toLocaleString_ptBR iso.

End Helpers.

End Api.

(** ** Asynchronous calls

    An [async] function is a computation over the log of what it has
    done on the network so far: a request is [Issued] when [fetch] is
    called and [Settled] when the [await] on its promise returns.  The
    result is a value or a thrown error. *)

Module Async.

Inductive ApiPrefix : Type := api100 | api69.

Definition prefixPath (p : ApiPrefix) : string :=
  match p with api100 => "/api100" | api69 => "/api69" end.

Inductive Request : Type :=
| ReqLogin (prefix : ApiPrefix)
| ReqAlarms (prefix : ApiPrefix).

Inductive Event : Type :=
| Issued (r : Request)
| Settled (r : Request).

Record Exn : Type := Error { message : string }.

(** What comes back from one HTTP exchange. *)
Inductive HttpReply (A : Type) : Type :=
| NetworkError (msg : string)                      (* [fetch] rejects *)
| HttpStatus (status : nat) (statusText text : string)   (* [!res.ok] *)
| BadJson (msg : string)                           (* [res.json()] rejects *)
| Json (body : A).
Arguments NetworkError {A} msg.
Arguments HttpStatus {A} status statusText text.
Arguments BadJson {A} msg.
Arguments Json {A} body.

Record Promise (A : Type) : Type := { request : Request; reply : HttpReply A }.
Arguments request {A} _.
Arguments reply {A} _.

Definition M (A : Type) : Type := list Event -> (Exn + A) * list Event.

Definition ret {A} (a : A) : M A := fun tr => (inr a, tr).

Definition bind {A B} (m : M A) (k : A -> M B) : M B :=
  fun tr =>
    match m tr with
    | (inl e, tr') => (inl e, tr')
    | (inr a, tr') => k a tr'
    end.

Definition throw {A} (e : Exn) : M A := fun tr => (inl e, tr).

(** [try { body } catch (e) { handler e }] *)
Definition try_catch {A} (body : M A) (handler : Exn -> M A) : M A :=
  fun tr =>
    match body tr with
    | (inl e, tr') => handler e tr'
    | (inr a, tr') => (inr a, tr')
    end.

(** [fetch(...)]: the request leaves, a promise comes back at once *)
Definition fetch {A} (r : Request) (rep : HttpReply A) : M (Promise A) :=
  fun tr => (inr {| request := r; reply := rep |}, (tr ++ [Issued r])%list).

(** [await p]: the function is suspended until the promise settles *)
Definition await {A} (p : Promise A) : M (HttpReply A) :=
  fun tr => (inr (reply p), (tr ++ [Settled (request p)])%list).

Definition run {A} (m : M A) : (Exn + A) * list Event := m [].

End Async.

#[global] Instance Async_ret : MRet Async.M := @Async.ret.
#[global] Instance Async_bind : MBind Async.M :=
  fun A B k m => Async.bind m k.

(** ** The two-backend component *)

Module Alarms.
Import Async.

Inductive SimNao : Type := Sim | Nao.

Definition SimNao_str (x : SimNao) : string :=
  match x with Sim => "Sim" | Nao => "Não" end.

Record Row : Type := {
  id : string;
  dateTimeISO : string;
  dateTime : string;
  site : string;
  point : string;
  value : string;
  unit : string;
  priority : JS.number;
  reconhecido : SimNao;
  descartado : SimNao
}.

Inductive SortKey : Type :=
| K_dateTime | K_site | K_point | K_value | K_unit | K_priority
| K_reconhecido | K_descartado.

Inductive SortDir : Type := asc | desc.

(** the three states of the acknowledged and discarded selectors *)
Inductive Tri : Type := all | sim | nao.

(** *** Comments kept in localStorage *)

(** A storage that can be read: the texts it holds, and whether
    [setItem] of a key and a text throws, given what it holds (quota
    exceeded). *)
Record Store : Type := {
  entries : gmap string string;
  setItemThrows : gmap string string -> string -> string -> bool
}.

(** [None]: every access to the storage throws. *)
Definition Storage : Type := option Store.

Definition COMMENT_KEY (id : string) : string := "alarm_comment_" ++ id.

(** [getItem] in its own [try]: the empty text when the key is absent or
    the access throws *)
Definition loadComment (ls : Storage) (id : string) : string :=
  match ls with
  | Some s => match entries s !! COMMENT_KEY id with Some t => t | None => "" end
  | None => ""
  end.

(** [setItem] in its own [try]: when it throws, the storage is left as
    it was *)
Definition saveComment (ls : Storage) (id text : string) : Storage :=
  match ls with
  | Some s =>
      if setItemThrows s (entries s) (COMMENT_KEY id) text then Some s
      else Some {| entries := <[COMMENT_KEY id := text]> (entries s);
                   setItemThrows := setItemThrows s |}
  | None => None
  end.

(** *** The two backends *)

Record Opts : Type := {
  isAcknowledged : option bool;
  isDiscarded : option bool
}.

(** How the two backends answer during one round. *)
Record World : Type := {
  login_reply : ApiPrefix -> string -> string -> HttpReply Api.LoginResponse;
  alarms_reply : ApiPrefix -> string -> Opts -> HttpReply Api.AlarmsResponse
}.

Definition loginP (w : World) (prefix : ApiPrefix) (username password : string)
  : M string :=
  p ← fetch (ReqLogin prefix) (login_reply w prefix username password);
  res ← await p;
  match res with
  | NetworkError msg => throw (Error msg)
  | HttpStatus status statusText text =>
      throw (Error ("Falha no login " ++ prefixPath prefix ++ " ("
                    ++ JS.natToString status ++ "): "
                    ++ (if JS.truthy text then text else statusText)))
  | BadJson msg => throw (Error msg)
  | Json data =>
      if JS.truthy (Api.accessToken data) then mret (Api.accessToken data)
      else throw (Error ("Login " ++ prefixPath prefix ++ " sem accessToken"))
  end.

Definition getAlarmsP (w : World) (prefix : ApiPrefix) (token : string)
  (opts : Opts) : M Api.AlarmsResponse :=
  p ← fetch (ReqAlarms prefix) (alarms_reply w prefix token opts);
  res ← await p;
  match res with
  | NetworkError msg => throw (Error msg)
  | HttpStatus status statusText text =>
      throw (Error ("Falha ao buscar alarmes " ++ prefixPath prefix ++ " ("
                    ++ JS.natToString status ++ "): "
                    ++ (if JS.truthy text then text else statusText)))
  | BadJson msg => throw (Error msg)
  | Json data => mret data
  end.

Definition fetchFrom (w : World) (prefix : ApiPrefix) (opts : Opts)
  : M (list Api.AlarmDTO) :=
  token ← loginP w prefix "api" "GMX3-Rel.10";
  data ← getAlarmsP w prefix token opts;
  mret (Api.items data).

Inductive FromIp : Type := ip100 | ip69.

Definition fromIpStr (f : FromIp) : string :=
  match f with ip100 => "10.2.1.100" | ip69 => "10.2.1.69" end.

(** The local variables of one round of [fetchData]. *)
Record Locals : Type := {
  itemsAll : list (FromIp * Api.AlarmDTO);
  successes : list string;
  failures : list string;
  c100 : nat;
  c69 : nat
}.

Definition locals0 : Locals :=
  {| itemsAll := []; successes := []; failures := []; c100 := 0; c69 := 0 |}.

(** The two [try]/[catch] blocks of [fetchData], in program order. *)
Definition fetchBoth (w : World) (opts : Opts) : M Locals :=
  l1 ← try_catch
         (a100 ← fetchFrom w api100 opts;
          mret {| itemsAll := (itemsAll locals0 ++ map (fun i => (ip100, i)) a100)%list;
                  successes := (successes locals0 ++ ["10.2.1.100"])%list;
                  failures := failures locals0;
                  c100 := List.length a100;
                  c69 := c69 locals0 |})
         (fun e =>
          mret {| itemsAll := itemsAll locals0;
                  successes := successes locals0;
                  failures := (failures locals0 ++ ["10.2.1.100"])%list;
                  c100 := c100 locals0;
                  c69 := c69 locals0 |});
  try_catch
    (a69 ← fetchFrom w api69 opts;
     mret {| itemsAll := (itemsAll l1 ++ map (fun i => (ip69, i)) a69)%list;
             successes := (successes l1 ++ ["10.2.1.69"])%list;
             failures := failures l1;
             c100 := c100 l1;
             c69 := List.length a69 |})
    (fun e =>
     mret {| itemsAll := itemsAll l1;
             successes := successes l1;
             failures := (failures l1 ++ ["10.2.1.69"])%list;
             c100 := c100 l1;
             c69 := c69 l1 |}).

Fixpoint join (sep : string) (l : list string) : string :=
  match l with
  | [] => ""
  | [x] => x
  | x :: l' => x ++ sep ++ join sep l'
  end.

Definition connectionNoteOf (l : Locals) : string :=
  if Nat.eqb (List.length (successes l)) 2 then
    "Conectado (100: " ++ JS.natToString (c100 l) ++ " + 69: "
      ++ JS.natToString (c69 l) ++ ")"
  else if Nat.eqb (List.length (successes l)) 1 then
    "Parcial — ok: " ++ match successes l with s :: _ => s | [] => "undefined" end
      ++ " / falha: " ++ join ", " (failures l)
  else "Falha nas duas conexões".

Definition composedId (fromIp : FromIp) (localId : string) : string :=
  fromIpStr fromIp ++ "-" ++ localId.

Section Projection.
Context `{Platform}.

Definition mapRow (x : FromIp * Api.AlarmDTO) : Row :=
  let '(fromIp, a) := x in
  {| id := composedId fromIp (Api.id a);
     dateTimeISO := Api.creationTime a;
     dateTime := Api.formatDateUTCToLocal (Api.creationTime a);
     site := Api.itemReference a;
     point := match Api.name a with
              | Some n => if JS.truthy n then n else Api.itemReference a
              | None => Api.itemReference a
              end;
     value := Api.normalizeValue
                (match Api.triggerValue a with
                 | Some t => Api.value t
                 | None => None
                 end);
     unit := Api.mapUnit
               (match Api.triggerValue a with
                | Some t => Api.units t
                | None => None
                end);
     priority := if JS.Number_isFinite (Api.priority a)
                 then match Api.priority a with
                      | JS.VNum x => x
                      | _ => JS.Finite 0 0
                      end
                 else JS.Finite 0 0;
     reconhecido := if Api.isAcknowledged a then Sim else Nao;
     descartado := if Api.isDiscarded a then Sim else Nao |}.

Definition mapped (l : Locals) : list Row := map mapRow (itemsAll l).

End Projection.

(** *** Component state (the [useState] hooks) *)

Record Filters : Type := {
  fSite : string;
  fPoint : string;
  fValue : string;
  fDateFrom : string;
  fDateTo : string;
  fPriority : string;
  fAck : Tri;
  fDisc : Tri
}.

Record State : Type := {
  rows : list Row;
  loading : bool;
  err : string;
  connectionNote : string;
  filters : Filters;
  sortKey : SortKey;
  sortDir : SortDir;
  autoRefresh : bool;
  secondsLeft : Z;
  comments : gmap string string
}.

Definition setRows (v : list Row) (st : State) : State :=
  {| rows := v; loading := loading st; err := err st;
     connectionNote := connectionNote st; filters := filters st;
     sortKey := sortKey st; sortDir := sortDir st;
     autoRefresh := autoRefresh st; secondsLeft := secondsLeft st;
     comments := comments st |}.

Definition setLoading (v : bool) (st : State) : State :=
  {| rows := rows st; loading := v; err := err st;
     connectionNote := connectionNote st; filters := filters st;
     sortKey := sortKey st; sortDir := sortDir st;
     autoRefresh := autoRefresh st; secondsLeft := secondsLeft st;
     comments := comments st |}.

Definition setErr (v : string) (st : State) : State :=
  {| rows := rows st; loading := loading st; err := v;
     connectionNote := connectionNote st; filters := filters st;
     sortKey := sortKey st; sortDir := sortDir st;
     autoRefresh := autoRefresh st; secondsLeft := secondsLeft st;
     comments := comments st |}.

Definition setConnectionNote (v : string) (st : State) : State :=
  {| rows := rows st; loading := loading st; err := err st;
     connectionNote := v; filters := filters st;
     sortKey := sortKey st; sortDir := sortDir st;
     autoRefresh := autoRefresh st; secondsLeft := secondsLeft st;
     comments := comments st |}.

Definition setFilters (v : Filters) (st : State) : State :=
  {| rows := rows st; loading := loading st; err := err st;
     connectionNote := connectionNote st; filters := v;
     sortKey := sortKey st; sortDir := sortDir st;
     autoRefresh := autoRefresh st; secondsLeft := secondsLeft st;
     comments := comments st |}.

Definition setSortKey (v : SortKey) (st : State) : State :=
  {| rows := rows st; loading := loading st; err := err st;
     connectionNote := connectionNote st; filters := filters st;
     sortKey := v; sortDir := sortDir st;
     autoRefresh := autoRefresh st; secondsLeft := secondsLeft st;
     comments := comments st |}.

Definition setSortDir (v : SortDir) (st : State) : State :=
  {| rows := rows st; loading := loading st; err := err st;
     connectionNote := connectionNote st; filters := filters st;
     sortKey := sortKey st; sortDir := v;
     autoRefresh := autoRefresh st; secondsLeft := secondsLeft st;
     comments := comments st |}.

Definition setAutoRefresh (v : bool) (st : State) : State :=
  {| rows := rows st; loading := loading st; err := err st;
     connectionNote := connectionNote st; filters := filters st;
     sortKey := sortKey st; sortDir := sortDir st;
     autoRefresh := v; secondsLeft := secondsLeft st;
     comments := comments st |}.

Definition setSecondsLeft (v : Z) (st : State) : State :=
  {| rows := rows st; loading := loading st; err := err st;
     connectionNote := connectionNote st; filters := filters st;
     sortKey := sortKey st; sortDir := sortDir st;
     autoRefresh := autoRefresh st; secondsLeft := v;
     comments := comments st |}.

Definition setComments (v : gmap string string) (st : State) : State :=
  {| rows := rows st; loading := loading st; err := err st;
     connectionNote := connectionNote st; filters := filters st;
     sortKey := sortKey st; sortDir := sortDir st;
     autoRefresh := autoRefresh st; secondsLeft := secondsLeft st;
     comments := v |}.

Definition noFilters : Filters :=
  {| fSite := ""; fPoint := ""; fValue := ""; fDateFrom := ""; fDateTo := "";
     fPriority := ""; fAck := all; fDisc := all |}.

(** the initial values of the hooks *)
Definition initialState : State :=
  {| rows := []; loading := false; err := ""; connectionNote := "";
     filters := noFilters; sortKey := K_dateTime; sortDir := desc;
     autoRefresh := true; secondsLeft := 60; comments := ∅ |}.

(** *** [fetchData] *)

Definition triOpt (t : Tri) : option bool :=
  match t with all => None | sim => Some true | nao => Some false end.

(** the [opts] object a call of [fetchData] builds from the filters it sees *)
Definition fetchData_opts (st : State) : Opts :=
  {| isAcknowledged := triOpt (fAck (filters st));
     isDiscarded := triOpt (fDisc (filters st)) |}.

(** up to the first [await] *)
Definition fetchData_begin (st : State) : State :=
  setConnectionNote "" (setErr "" (setLoading true st)).

Section Round.
Context `{Platform}.

Definition hydrate (ls : Storage) (mapped : list Row) : gmap string string :=
  fold_left (fun m r => <[id r := loadComment ls (id r)]> m) mapped ∅.

(** from the last [await] to the end, [res] being what the two fetches gave *)
Definition fetchData_end (ls : Storage) (res : Exn + Locals) (st : State) : State :=
  let st1 :=
    match res with
    | inr l =>
        let st' := setConnectionNote (connectionNoteOf l) st in
        let st'' := setRows (mapped l) st' in
        setComments (hydrate ls (mapped l)) st''
    | inl e =>
        setErr (if JS.truthy (message e) then message e else "Erro desconhecido") st
    end in
  setSecondsLeft 60 (setLoading false st1).

(** one round that nothing interleaves with; the log of its requests is
    returned with the new state *)
Definition fetchData (w : World) (ls : Storage) (st : State) : State * list Event :=
  let '(res, tr) := run (fetchBoth w (fetchData_opts st)) in
  (fetchData_end ls res (fetchData_begin st), tr).

End Round.

(** *** Filters and sort handlers *)

Definition clearFilters (st : State) : State :=
  setSortDir desc (setSortKey K_dateTime (setFilters noFilters st)).

#[global] Instance SortKey_eq_dec : EqDecision SortKey.
Proof. solve_decision. Defined.

Definition onSort (key : SortKey) (st : State) : State :=
  if decide (sortKey st = key) then
    setSortDir (match sortDir st with asc => desc | desc => asc end) st
  else setSortDir asc (setSortKey key st).

Definition handleCommentChange (id v : string) (st : State) : State :=
  setComments (<[id := v]> (comments st)) st.

Definition handleCommentBlur (id : string) (st : State) (ls : Storage) : Storage :=
  saveComment ls id (match comments st !! id with Some t => t | None => "" end).

(** *** The [filtered] memo *)

Definition priNum (fPriority : string) : option JS.number :=
  if String.eqb (JS.trim fPriority) "" then None else Some (JS.Number fPriority).

Definition priIsNum (fPriority : string) : bool :=
  match priNum fPriority with
  | Some n => negb (JS.isNaN n)
  | None => false
  end.

Definition passPriority (fPriority : string) (r : Row) : bool :=
  if String.eqb (JS.trim fPriority) "" then true
  else if priIsNum fPriority then
    match priNum fPriority with
    | Some n => JS.strictEq (priority r) n
    | None => false
    end
  else JS.includes (JS.toString (priority r)) (JS.trim fPriority).

Definition passTri (f : Tri) (x : SimNao) : bool :=
  match f with
  | all => true
  | sim => match x with Sim => true | Nao => false end
  | nao => match x with Nao => true | Sim => false end
  end.

Section View.
Context `{Platform}.

Definition inc (h n : string) : bool :=
  JS.includes (toLowerCase h) (toLowerCase (JS.trim n)).

Definition passes (f : Filters) (r : Row) : bool :=
  let from := if JS.truthy (fDateFrom f)
              then Some (Date_getTime (fDateFrom f ++ "T00:00:00")) else None in
  let to := if JS.truthy (fDateTo f)
            then Some (Date_getTime (fDateTo f ++ "T23:59:59.999")) else None in
  let passSite := (negb (JS.truthy (fSite f)) || inc (site r) (fSite f))%bool in
  let passPoint := (negb (JS.truthy (fPoint f)) || inc (point r) (fPoint f))%bool in
  let passValue := (negb (JS.truthy (fValue f)) || inc (value r) (fValue f))%bool in
  let ts := Date_getTime (dateTimeISO r) in
  let passFrom := match from with None => true | Some t => JS.geq ts t end in
  let passTo := match to with None => true | Some t => JS.leq ts t end in
  let passAck := passTri (fAck f) (reconhecido r) in
  let passDisc := passTri (fDisc f) (descartado r) in
  (passSite && passPoint && passValue && passFrom && passTo && passAck
   && passDisc && passPriority (fPriority f) r)%bool.

Definition filtered (st : State) : list Row :=
  List.filter (passes (filters st)) (rows st).

(** *** The comparator of the [sorted] memo *)

Definition dirNum (d : SortDir) : JS.number :=
  match d with asc => JS.Finite 1 0 | desc => JS.Finite (-1) 0 end.

Definition compareRows (key : SortKey) (d : SortDir) (a b : Row) : JS.number :=
  let dir := dirNum d in
  match key with
  | K_dateTime =>
      let ta := Date_getTime (dateTimeISO a) in
      let tb := Date_getTime (dateTimeISO b) in
      JS.mul (JS.sub ta tb) dir
  | K_site => JS.mul (localeCompare (site a) (site b)) dir
  | K_point => JS.mul (localeCompare (point a) (point b)) dir
  | K_unit => JS.mul (localeCompare (unit a) (unit b)) dir
  | K_reconhecido =>
      JS.mul (localeCompare (SimNao_str (reconhecido a)) (SimNao_str (reconhecido b))) dir
  | K_descartado =>
      JS.mul (localeCompare (SimNao_str (descartado a)) (SimNao_str (descartado b))) dir
  | K_priority => JS.mul (JS.sub (priority a) (priority b)) dir
  | K_value =>
      let na := JS.parseFloat (JS.replace (value a) "," ".") in
      let nb := JS.parseFloat (JS.replace (value b) "," ".") in
      if (negb (JS.isNaN na) && negb (JS.isNaN nb))%bool then JS.mul (JS.sub na nb) dir
      else JS.mul (localeCompare (value a) (value b)) dir
  end.

End View.

(** *** The component over time

    What the hooks hold, the calls of [fetchData] that have started and
    not finished, and the 1 s interval.  A call of [fetchData] works on
    the [opts] it built when it started; the interval callback is the
    one of the render in which the auto-refresh effect ran, so it keeps
    the filters of that render. *)

Record Sys : Type := {
  ui : State;
  running : list Opts;
  interval : option Opts;
  storage : Storage
}.

Inductive Action : Type :=
| Mount                               (* first render: both effects run *)
| Tick                                (* the interval fires *)
| ClickRefresh                        (* the refresh button *)
| ToggleAuto (checked : bool)         (* the Auto checkbox *)
| ClickClear                          (* the clear-filters button *)
| Settle (i : nat) (w : World).       (* the i-th running call finishes *)

Definition withUi (f : State -> State) (s : Sys) : Sys :=
  {| ui := f (ui s); running := running s; interval := interval s;
     storage := storage s |}.

Definition withInterval (v : option Opts) (s : Sys) : Sys :=
  {| ui := ui s; running := running s; interval := v; storage := storage s |}.

(** a call of [fetchData] runs to its first [await] *)
Definition start (o : Opts) (s : Sys) : Sys :=
  {| ui := fetchData_begin (ui s); running := (running s ++ [o])%list;
     interval := interval s; storage := storage s |}.

Definition init (ls : Storage) : Sys :=
  {| ui := initialState; running := []; interval := None; storage := ls |}.

Section Scheduler.
Context `{Platform}.

Definition step (a : Action) (s : Sys) : Sys :=
  match a with
  | Mount =>
      let s1 := start (fetchData_opts (ui s)) s in
      if autoRefresh (ui s) then
        match interval s1 with
        | None => withInterval (Some (fetchData_opts (ui s))) s1
        | Some _ => s1
        end
      else withInterval None s1
  | Tick =>
      match interval s with
      | None => s
      | Some o =>
          if secondsLeft (ui s) <=? 1
          then withUi (setSecondsLeft 60) (start o s)
          else withUi (setSecondsLeft (secondsLeft (ui s) - 1)) s
      end
  | ClickRefresh =>
      (* the button is [disabled] while [loading] *)
      if loading (ui s) then s else start (fetchData_opts (ui s)) s
  | ToggleAuto checked =>
      if Bool.eqb checked (autoRefresh (ui s)) then s
      else
        let s1 := withUi (setAutoRefresh checked) s in
        if checked then
          match interval s1 with
          | None => withInterval (Some (fetchData_opts (ui s1))) s1
          | Some _ => s1
          end
        else withInterval None s1
  | ClickClear => withUi clearFilters s
  | Settle i w =>
      match running s !! i with
      | None => s
      | Some o =>
          let '(res, _) := run (fetchBoth w o) in
          {| ui := fetchData_end (storage s) res (ui s);
             running := delete i (running s);
             interval := interval s; storage := storage s |}
      end
  end.

Definition exec (l : list Action) (s : Sys) : Sys :=
  fold_left (fun acc a => step a acc) l s.

End Scheduler.

(** *** What the toolbar shows, and the handlers of the filter inputs *)

Definition arrow (key : SortKey) (st : State) : string :=
  if decide (sortKey st = key)
  then match sortDir st with asc => "▲" | desc => "▼" end
  else "↕".

(** the text of the status span *)
Definition statusText (st : State) : string :=
  if JS.truthy (err st) then "Erro: " ++ err st
  else if JS.truthy (connectionNote st) then connectionNote st
  else "—".

Definition setFSite (v : string) (st : State) : State :=
  setFilters {| fSite := v; fPoint := fPoint (filters st);
                fValue := fValue (filters st); fDateFrom := fDateFrom (filters st);
                fDateTo := fDateTo (filters st); fPriority := fPriority (filters st);
                fAck := fAck (filters st); fDisc := fDisc (filters st) |} st.

Definition setFPoint (v : string) (st : State) : State :=
  setFilters {| fSite := fSite (filters st); fPoint := v;
                fValue := fValue (filters st); fDateFrom := fDateFrom (filters st);
                fDateTo := fDateTo (filters st); fPriority := fPriority (filters st);
                fAck := fAck (filters st); fDisc := fDisc (filters st) |} st.

Definition setFValue (v : string) (st : State) : State :=
  setFilters {| fSite := fSite (filters st); fPoint := fPoint (filters st);
                fValue := v; fDateFrom := fDateFrom (filters st);
                fDateTo := fDateTo (filters st); fPriority := fPriority (filters st);
                fAck := fAck (filters st); fDisc := fDisc (filters st) |} st.

Definition setFDateFrom (v : string) (st : State) : State :=
  setFilters {| fSite := fSite (filters st); fPoint := fPoint (filters st);
                fValue := fValue (filters st); fDateFrom := v;
                fDateTo := fDateTo (filters st); fPriority := fPriority (filters st);
                fAck := fAck (filters st); fDisc := fDisc (filters st) |} st.

Definition setFDateTo (v : string) (st : State) : State :=
  setFilters {| fSite := fSite (filters st); fPoint := fPoint (filters st);
                fValue := fValue (filters st); fDateFrom := fDateFrom (filters st);
                fDateTo := v; fPriority := fPriority (filters st);
                fAck := fAck (filters st); fDisc := fDisc (filters st) |} st.

Definition setFPriority (v : string) (st : State) : State :=
  setFilters {| fSite := fSite (filters st); fPoint := fPoint (filters st);
                fValue := fValue (filters st); fDateFrom := fDateFrom (filters st);
                fDateTo := fDateTo (filters st); fPriority := v;
                fAck := fAck (filters st); fDisc := fDisc (filters st) |} st.

Definition setFAck (v : Tri) (st : State) : State :=
  setFilters {| fSite := fSite (filters st); fPoint := fPoint (filters st);
                fValue := fValue (filters st); fDateFrom := fDateFrom (filters st);
                fDateTo := fDateTo (filters st); fPriority := fPriority (filters st);
                fAck := v; fDisc := fDisc (filters st) |} st.

Definition setFDisc (v : Tri) (st : State) : State :=
  setFilters {| fSite := fSite (filters st); fPoint := fPoint (filters st);
                fValue := fValue (filters st); fDateFrom := fDateFrom (filters st);
                fDateTo := fDateTo (filters st); fPriority := fPriority (filters st);
                fAck := fAck (filters st); fDisc := v |} st.

(** *** The URLs the two calls are made to

    [URLSearchParams.toString()] on the keys and values used here,
    which need no escaping. *)

Definition boolStr (b : bool) : string := if b then "true" else "false".

Definition alarmsParams (opts : Opts) : list (string * string) :=
  ([("pageSize", "500")]
   ++ match isAcknowledged opts with
      | Some b => [("isAcknowledged", boolStr b)]
      | None => []
      end
   ++ match isDiscarded opts with
      | Some b => [("isDiscarded", boolStr b)]
      | None => []
      end)%list.

Definition paramsToString (l : list (string * string)) : string :=
  join "&" (map (fun kv => fst kv ++ "=" ++ snd kv) l).

Definition loginUrl (prefix : ApiPrefix) : string :=
  prefixPath prefix ++ "/v3/login".

Definition alarmsUrl (prefix : ApiPrefix) (opts : Opts) : string :=
  prefixPath prefix ++ "/v3/alarms/?" ++ paramsToString (alarmsParams opts).

End Alarms.

(** ** The single-backend component *)

Module Single.

Inductive SimNao : Type := Sim | Nao.

Record Row : Type := {
  id : string;
  dateTimeISO : string;
  dateTime : string;
  site : string;
  point : string;
  value : string;
  unit : string;
  reconhecido : SimNao;
  descartado : SimNao
}.

Inductive SortKey : Type :=
| K_dateTime | K_site | K_point | K_value | K_unit | K_reconhecido | K_descartado.

Inductive SortDir : Type := asc | desc.

Inductive Tri : Type := all | sim | nao.

Record Filters : Type := {
  fSite : string;
  fPoint : string;
  fValue : string;
  fDateFrom : string;
  fDateTo : string;
  fAck : Tri;
  fDisc : Tri
}.

Record State : Type := {
  token : string;
  rows : list Row;
  loading : bool;
  err : string;
  filters : Filters;
  sortKey : SortKey;
  sortDir : SortDir;
  autoRefresh : bool;
  secondsLeft : Z;
  comments : gmap string string
}.

Definition setFilters (v : Filters) (st : State) : State :=
  {| token := token st; rows := rows st; loading := loading st; err := err st;
     filters := v; sortKey := sortKey st; sortDir := sortDir st;
     autoRefresh := autoRefresh st; secondsLeft := secondsLeft st;
     comments := comments st |}.

Definition noFilters : Filters :=
  {| fSite := ""; fPoint := ""; fValue := ""; fDateFrom := ""; fDateTo := "";
     fAck := all; fDisc := all |}.

Definition clearFilters (st : State) : State := setFilters noFilters st.

Section Projection.
Context `{Platform}.

Definition mapRow (a : Api.AlarmDTO) : Row :=
  {| id := Api.id a;
     dateTimeISO := Api.creationTime a;
     dateTime := Api.formatDateUTCToLocal (Api.creationTime a);
     site := Api.itemReference a;
     point := match Api.name a with
              | Some n => if JS.truthy n then n else Api.itemReference a
              | None => Api.itemReference a
              end;
     value := Api.normalizeValue
                (match Api.triggerValue a with
                 | Some t => Api.value t
                 | None => None
                 end);
     unit := Api.mapUnit
               (match Api.triggerValue a with
                | Some t => Api.units t
                | None => None
                end);
     reconhecido := if Api.isAcknowledged a then Sim else Nao;
     descartado := if Api.isDiscarded a then Sim else Nao |}.

End Projection.

(** *** The calls of [api.ts] and [fetchData] *)

Inductive result (A : Type) : Type :=
| Thrown (e : Async.Exn)
| Returned (a : A).
Arguments Thrown {A} e.
Arguments Returned {A} a.

(** How the backend answers during one round. *)
Record World : Type := {
  login_reply : string -> string -> Async.HttpReply Api.LoginResponse;
  alarms_reply : string -> Alarms.Opts -> Async.HttpReply Api.AlarmsResponse
}.

Definition loginUrl : string := "/api/v3/login".

Definition alarmsUrl (opts : Alarms.Opts) : string :=
  "/api/v3/alarms/" ++ ("?" ++ Alarms.paramsToString (Alarms.alarmsParams opts)).

Definition login (w : World) (username password : string) : result string :=
  match login_reply w username password with
  | Async.NetworkError msg => Thrown (Async.Error msg)
  | Async.HttpStatus status statusText text =>
      Thrown (Async.Error ("Falha no login (" ++ JS.natToString status ++ "): "
                           ++ (if JS.truthy text then text else statusText)))
  | Async.BadJson msg => Thrown (Async.Error msg)
  | Async.Json data =>
      if JS.truthy (Api.accessToken data) then Returned (Api.accessToken data)
      else Thrown (Async.Error "Resposta de login sem accessToken")
  end.

Definition getAlarms (w : World) (token : string) (opts : Alarms.Opts)
  : result Api.AlarmsResponse :=
  match alarms_reply w token opts with
  | Async.NetworkError msg => Thrown (Async.Error msg)
  | Async.HttpStatus status statusText text =>
      Thrown (Async.Error ("Falha ao buscar alarmes (" ++ JS.natToString status ++ "): "
                           ++ (if JS.truthy text then text else statusText)))
  | Async.BadJson msg => Thrown (Async.Error msg)
  | Async.Json data => Returned data
  end.

Definition setToken (v : string) (st : State) : State :=
  {| token := v; rows := rows st; loading := loading st; err := err st;
     filters := filters st; sortKey := sortKey st; sortDir := sortDir st;
     autoRefresh := autoRefresh st; secondsLeft := secondsLeft st;
     comments := comments st |}.

Definition setRows (v : list Row) (st : State) : State :=
  {| token := token st; rows := v; loading := loading st; err := err st;
     filters := filters st; sortKey := sortKey st; sortDir := sortDir st;
     autoRefresh := autoRefresh st; secondsLeft := secondsLeft st;
     comments := comments st |}.

Definition setLoading (v : bool) (st : State) : State :=
  {| token := token st; rows := rows st; loading := v; err := err st;
     filters := filters st; sortKey := sortKey st; sortDir := sortDir st;
     autoRefresh := autoRefresh st; secondsLeft := secondsLeft st;
     comments := comments st |}.

Definition setErr (v : string) (st : State) : State :=
  {| token := token st; rows := rows st; loading := loading st; err := v;
     filters := filters st; sortKey := sortKey st; sortDir := sortDir st;
     autoRefresh := autoRefresh st; secondsLeft := secondsLeft st;
     comments := comments st |}.

Definition setSortKey (v : SortKey) (st : State) : State :=
  {| token := token st; rows := rows st; loading := loading st; err := err st;
     filters := filters st; sortKey := v; sortDir := sortDir st;
     autoRefresh := autoRefresh st; secondsLeft := secondsLeft st;
     comments := comments st |}.

Definition setSortDir (v : SortDir) (st : State) : State :=
  {| token := token st; rows := rows st; loading := loading st; err := err st;
     filters := filters st; sortKey := sortKey st; sortDir := v;
     autoRefresh := autoRefresh st; secondsLeft := secondsLeft st;
     comments := comments st |}.

Definition setSecondsLeft (v : Z) (st : State) : State :=
  {| token := token st; rows := rows st; loading := loading st; err := err st;
     filters := filters st; sortKey := sortKey st; sortDir := sortDir st;
     autoRefresh := autoRefresh st; secondsLeft := v;
     comments := comments st |}.

Definition setComments (v : gmap string string) (st : State) : State :=
  {| token := token st; rows := rows st; loading := loading st; err := err st;
     filters := filters st; sortKey := sortKey st; sortDir := sortDir st;
     autoRefresh := autoRefresh st; secondsLeft := secondsLeft st;
     comments := v |}.

Definition triOpt (t : Tri) : option bool :=
  match t with all => None | sim => Some true | nao => Some false end.

Definition fetchData_opts (st : State) : Alarms.Opts :=
  {| Alarms.isAcknowledged := triOpt (fAck (filters st));
     Alarms.isDiscarded := triOpt (fDisc (filters st)) |}.

Definition errorText (e : Async.Exn) : string :=
  if JS.truthy (Async.message e) then Async.message e else "Erro desconhecido".

Section Round.
Context `{Platform}.

(** the comments are read from localStorage as in the other variant *)
Definition hydrate (ls : Alarms.Storage) (mapped : list Row) : gmap string string :=
  fold_left (fun m r => <[id r := Alarms.loadComment ls (id r)]> m) mapped ∅.

Definition fetchData (w : World) (ls : Alarms.Storage) (st : State) : State :=
  let st0 := setErr "" (setLoading true st) in
  let st1 :=
    match login w "api" "GMX3-Rel.10" with
    | Thrown e => setErr (errorText e) st0
    | Returned t =>
        let st' := setToken t st0 in
        match getAlarms w t (fetchData_opts st) with
        | Thrown e => setErr (errorText e) st'
        | Returned data =>
            let mapped := map mapRow (Api.items data) in
            setComments (hydrate ls mapped) (setRows mapped st')
        end
    end in
  setSecondsLeft 60 (setLoading false st1).

End Round.

#[global] Instance SortKey_eq_dec : EqDecision SortKey.
Proof. solve_decision. Defined.

Definition onSort (key : SortKey) (st : State) : State :=
  if decide (sortKey st = key) then
    setSortDir (match sortDir st with asc => desc | desc => asc end) st
  else setSortKey key (setSortDir asc st).

End Single.

(** ** The development proxies (the two [vite.config] files) *)

Module Vite.

Record ProxyRule : Type := {
  context : string;
  target : string;
  rewrite : string -> string
}.

Fixpoint stripPrefix (p s : string) : option string :=
  match p, s with
  | EmptyString, _ => Some s
  | String a p', String b s' => if Ascii.eqb a b then stripPrefix p' s' else None
  | String _ _, EmptyString => None
  end.

(** [path.replace(/^p/, by)] for a literal [p] *)
Definition replacePrefix (p by_ path : string) : string :=
  match stripPrefix p path with
  | Some rest => by_ ++ rest
  | None => path
  end.

(** the proxy table that serves the two-backend component *)
Definition proxyTwo : list ProxyRule :=
  [ {| context := "/api69"; target := "https://10.2.1.69";
       rewrite := replacePrefix "/api69" "/api" |};
    {| context := "/api100"; target := "https://10.2.1.100";
       rewrite := replacePrefix "/api100" "/api" |} ].

(** the proxy table that serves the single-backend component *)
Definition proxyOne : list ProxyRule :=
  [ {| context := "/api/v3"; target := "https://10.2.1.100";
       rewrite := fun path => path |} ].

(** the first rule whose context starts the URL decides where the
    request goes and with which path *)
Fixpoint route (rules : list ProxyRule) (url : string) : option (string * string) :=
  match rules with
  | [] => None
  | r :: rules' =>
      if String.prefix (context r) url then Some (target r, rewrite r url)
      else route rules' url
  end.

End Vite.

(** ** A concrete host

    A host on UTC whose collation is by code unit; it is used to
    evaluate the component on concrete inputs. *)

Module Host.

Definition lowerAscii (c : ascii) : ascii :=
  let n := nat_of_ascii c in
  if (Nat.leb 65 n && Nat.leb n 90)%bool then ascii_of_nat (n + 32) else c.

Fixpoint lower (s : string) : string :=
  match s with
  | EmptyString => EmptyString
  | String c s' => String (lowerAscii c) (lower s')
  end.

Definition compareCodeUnits (a b : string) : JS.number :=
  match String.compare a b with
  | Eq => JS.Finite 0 0
  | Lt => JS.Finite (-1) 0
  | Gt => JS.Finite 1 0
  end.

Definition daysFromCivil (y m d : Z) : Z :=
  let y' := if m <=? 2 then y - 1 else y in
  let era := y' / 400 in
  let yoe := y' - era * 400 in
  let mp := if 2 <? m then m - 3 else m + 9 in
  let doy := (153 * mp + 2) / 5 + d - 1 in
  let doe := yoe * 365 + yoe / 4 - yoe / 100 + doy in
  era * 146097 + doe - 719468.

Definition civilFromDays (z : Z) : Z * Z * Z :=
  let z' := z + 719468 in
  let era := z' / 146097 in
  let doe := z' - era * 146097 in
  let yoe := (doe - doe / 1460 + doe / 36524 - doe / 146096) / 365 in
  let doy := doe - (365 * yoe + yoe / 4 - yoe / 100) in
  let mp := (5 * doy + 2) / 153 in
  let d := doy - (153 * mp + 2) / 5 + 1 in
  let m := if mp <? 10 then mp + 3 else mp - 9 in
  let y := yoe + era * 400 in
  ((if m <=? 2 then y + 1 else y), m, d).

Fixpoint digitsN (n : nat) (acc : Z) (l : list ascii) : option (Z * list ascii) :=
  match n with
  | O => Some (acc, l)
  | S n' =>
      match l with
      | c :: l' =>
          match JS.digitVal c with
          | Some d => digitsN n' (acc * 10 + d) l'
          | None => None
          end
      | [] => None
      end
  end.

Definition expect (c : ascii) (l : list ascii) : option (list ascii) :=
  match l with
  | x :: l' => if Ascii.eqb x c then Some l' else None
  | [] => None
  end.

Definition epochMs (y mo d h mi sec ms : Z) : option Z :=
  if ((1 <=? mo) && (mo <=? 12) && (1 <=? d) && (d <=? 31) && (h <? 24)
      && (mi <? 60) && (sec <? 60))%bool
  then Some ((((daysFromCivil y mo d * 24 + h) * 60 + mi) * 60 + sec) * 1000 + ms)
  else None.

(** [YYYY-MM-DD] or [YYYY-MM-DDTHH:mm[:ss[.sss]]] with an optional [Z] *)
Definition parseIso (s : string) : option Z :=
  '(y, l) ← digitsN 4 0 (list_ascii_of_string s);
  l ← expect "-" l;
  '(mo, l) ← digitsN 2 0 l;
  l ← expect "-" l;
  '(d, l) ← digitsN 2 0 l;
  match l with
  | [] => epochMs y mo d 0 0 0 0
  | _ =>
      l ← expect "T" l;
      '(h, l) ← digitsN 2 0 l;
      l ← expect ":" l;
      '(mi, l) ← digitsN 2 0 l;
      '(sec, ms, l) ←
        match expect ":" l with
        | Some l1 =>
            '(sec, l2) ← digitsN 2 0 l1;
            match expect "." l2 with
            | Some l3 => '(ms, l4) ← digitsN 3 0 l3; Some (sec, ms, l4)
            | None => Some (sec, 0, l2)
            end
        | None => Some (0, 0, l)
        end;
      match l with
      | [] => epochMs y mo d h mi sec ms
      | [z] => if Ascii.eqb z "Z" then epochMs y mo d h mi sec ms else None
      | _ => None
      end
  end.

Definition getTime (s : string) : JS.number :=
  match parseIso s with
  | Some t => JS.ofZ t
  | None => JS.NaN
  end.

Definition pad2 (z : Z) : string :=
  if z <? 10 then "0" ++ JS.posZToString z else JS.posZToString z.

Definition toLocaleString (s : string) : string :=
  match parseIso s with
  | None => "Invalid Date"
  | Some t =>
      let day := t / 86400000 in
      let rest := t mod 86400000 in
      let '(y, m, d) := civilFromDays day in
      pad2 d ++ "/" ++ pad2 m ++ "/" ++ JS.posZToString y ++ ", "
        ++ pad2 (rest / 3600000) ++ ":" ++ pad2 (rest / 60000 mod 60) ++ ":"
        ++ pad2 (rest / 1000 mod 60)
  end.

(** scalars only: a number, [true], [false], [null], or a string
    literal without escapes *)
Definition parseScalar (raw : string) : option string :=
  let t := JS.trim raw in
  if (String.eqb t "true" || String.eqb t "false" || String.eqb t "null")%bool
  then Some t
  else
    match list_ascii_of_string t with
    | q :: body =>
        if Ascii.eqb q JS.dquote then
          match rev body with
          | q' :: ydob =>
              if (Ascii.eqb q' JS.dquote
                  && forallb (fun c => negb (Ascii.eqb c JS.dquote
                                             || Ascii.eqb c "\")) ydob)%bool
              then Some (string_of_list_ascii (rev ydob))
              else None
          | [] => None
          end
        else
          match JS.scanDecimal (q :: body) with
          | Some (JS.Finite m e, []) =>
              if Ascii.eqb q "+" then None else Some (JS.toString (JS.Finite m e))
          | _ => None
          end
    | [] => None
    end.

Definition utc : Platform := {|
  toLowerCase := lower;
  localeCompare := compareCodeUnits;
  Date_getTime := getTime;
  Date_toLocaleString_ptBR := toLocaleString;
  JSON_parse_String := parseScalar
|}.

End Host.

(** ** Sample backends *)

Module Sample.
Import Async Alarms.

Definition alarm (i site : string) : Api.AlarmDTO :=
  {| Api.id := i; Api.itemReference := site; Api.name := Some "Zone Temp";
     Api.creationTime := "2024-02-29T12:34:56Z";
     Api.isAcknowledged := false; Api.isDiscarded := false;
     Api.priority := JS.VNum (JS.Finite 2 0);
     Api.triggerValue :=
       Some {| Api.value := Some "21.5"; Api.units := Some "unitEnumSet.degC" |} |}.

Definition a1 : Api.AlarmDTO := alarm "1" "Site-A/AHU-1".
Definition a2 : Api.AlarmDTO := alarm "2" "Site-A/AHU-2".
Definition a3 : Api.AlarmDTO := alarm "7" "Site-A/Chiller".
Definition b7 : Api.AlarmDTO := alarm "7" "Site-B/Boiler".

(** an alarm with an empty name and a priority that is not a number *)
Definition unnamed : Api.AlarmDTO :=
  {| Api.id := "9"; Api.itemReference := "Site-B/Pump-3"; Api.name := Some "";
     Api.creationTime := "2024-03-01T08:00:00Z";
     Api.isAcknowledged := true; Api.isDiscarded := false;
     Api.priority := JS.VStr "high";
     Api.triggerValue := None |}.

(** two alarms whose values are the same number written with a comma
    and with a point *)
Definition withValue (v : string) : Api.AlarmDTO :=
  {| Api.id := "3"; Api.itemReference := "Site-A/Meter"; Api.name := Some "kWh";
     Api.creationTime := "2024-03-01T08:00:00Z";
     Api.isAcknowledged := false; Api.isDiscarded := false;
     Api.priority := JS.VNum (JS.Finite 1 0);
     Api.triggerValue := Some {| Api.value := Some v; Api.units := Some "kWh" |} |}.

Definition token : Api.LoginResponse := {| Api.accessToken := "tok" |}.

(** both backends answer *)
Definition bothUp : World :=
  {| login_reply := fun _ _ _ => Json token;
     alarms_reply := fun p _ _ =>
       match p with
       | api100 => Json {| Api.total := 3; Api.items := [a1; a2; a3] |}
       | api69 => Json {| Api.total := 1; Api.items := [b7] |}
       end |}.

(** the login to /api69 is refused by the network *)
Definition only100 : World :=
  {| login_reply := fun p _ _ =>
       match p with
       | api100 => Json token
       | api69 => NetworkError "Failed to fetch"
       end;
     alarms_reply := alarms_reply bothUp |}.

End Sample.

(** ** Observations on a round

    What the statements below speak of: what each backend gave in a
    round, the log of its requests, the outcome and its status text. *)

Section Observations.
Import Async Alarms.

(** what one backend gives in a round: its items, or nothing when the
    login or the retrieval throws *)
Definition fetched (w : World) (p : ApiPrefix) (o : Opts) : option (list Api.AlarmDTO) :=
  match fst (run (fetchFrom w p o)) with
  | inr l => Some l
  | inl _ => None
  end.

Definition traceOf (w : World) (p : ApiPrefix) (o : Opts) : list Event :=
  snd (run (fetchFrom w p o)).

Definition tagged (f : FromIp) (r : option (list Api.AlarmDTO))
  : list (FromIp * Api.AlarmDTO) :=
  match r with Some l => map (fun i => (f, i)) l | None => [] end.

Definition okList (ip : string) (r : option (list Api.AlarmDTO)) : list string :=
  match r with Some _ => [ip] | None => [] end.

Definition koList (ip : string) (r : option (list Api.AlarmDTO)) : list string :=
  match r with Some _ => [] | None => [ip] end.

Definition countOf (r : option (list Api.AlarmDTO)) : nat :=
  match r with Some l => List.length l | None => 0%nat end.

(** the locals of a round in terms of what each backend gave *)
Definition localsOf (r100 r69 : option (list Api.AlarmDTO)) : Locals :=
  {| itemsAll := (tagged ip100 r100 ++ tagged ip69 r69)%list;
     successes := (okList "10.2.1.100" r100 ++ okList "10.2.1.69" r69)%list;
     failures := (koList "10.2.1.100" r100 ++ koList "10.2.1.69" r69)%list;
     c100 := countOf r100;
     c69 := countOf r69 |}.

(** the largest number of requests issued and not yet settled, along a log *)
Fixpoint peak (tr : list Event) (cur : nat) : nat :=
  match tr with
  | [] => cur
  | Issued _ :: t => Nat.max cur (peak t (S cur))
  | Settled _ :: t => Nat.max cur (peak t (Nat.pred cur))
  end.

Definition prefixOf (f : FromIp) : ApiPrefix :=
  match f with ip100 => api100 | ip69 => api69 end.

(** a row comes from backend [f] when its id carries the address of [f] *)
Definition fromBackend (f : FromIp) (r : Row) : bool :=
  String.prefix (fromIpStr f ++ "-") (id r).

Inductive Outcome : Type :=
| AllSucceeded
| PartialFailure (failed : FromIp)
| AllFailed.

Definition outcomeOf (r100 r69 : option (list Api.AlarmDTO)) : Outcome :=
  match r100, r69 with
  | Some _, Some _ => AllSucceeded
  | Some _, None => PartialFailure ip69
  | None, Some _ => PartialFailure ip100
  | None, None => AllFailed
  end.

(** the status text of each outcome *)
Definition noteFor (out : Outcome) (n100 n69 : nat) : string :=
  match out with
  | AllSucceeded =>
      "Conectado (100: " ++ JS.natToString n100 ++ " + 69: " ++ JS.natToString n69 ++ ")"
  | PartialFailure ip69 => "Parcial — ok: 10.2.1.100 / falha: 10.2.1.69"
  | PartialFailure ip100 => "Parcial — ok: 10.2.1.69 / falha: 10.2.1.100"
  | AllFailed => "Falha nas duas conexões"
  end.

Definition sortedBySite : Single.State :=
  {| Single.token := ""; Single.rows := []; Single.loading := false;
     Single.err := "";
     Single.filters :=
       {| Single.fSite := "AHU"; Single.fPoint := ""; Single.fValue := "";
          Single.fDateFrom := ""; Single.fDateTo := "";
          Single.fAck := Single.sim; Single.fDisc := Single.all |};
     Single.sortKey := Single.K_site; Single.sortDir := Single.asc;
     Single.autoRefresh := true; Single.secondsLeft := 42;
     Single.comments := ∅ |}.

(** the filters with only the priority field filled in *)
Definition priorityOnly (f : string) : Alarms.Filters :=
  {| Alarms.fSite := ""; Alarms.fPoint := ""; Alarms.fValue := "";
     Alarms.fDateFrom := ""; Alarms.fDateTo := ""; Alarms.fPriority := f;
     Alarms.fAck := Alarms.all; Alarms.fDisc := Alarms.all |}.

(** a row with a given priority *)
Definition withPriority (p : Z) (r : Alarms.Row) : Alarms.Row :=
  {| Alarms.id := Alarms.id r; Alarms.dateTimeISO := Alarms.dateTimeISO r;
     Alarms.dateTime := Alarms.dateTime r; Alarms.site := Alarms.site r;
     Alarms.point := Alarms.point r; Alarms.value := Alarms.value r;
     Alarms.unit := Alarms.unit r; Alarms.priority := JS.ofZ p;
     Alarms.reconhecido := Alarms.reconhecido r;
     Alarms.descartado := Alarms.descartado r |}.

End Observations.

(** ** Further observations

    Used by the properties of the remaining handlers. *)

(** an alarm has the state the two flags of a request ask for *)
Definition honours (o : Alarms.Opts) (a : Api.AlarmDTO) : bool :=
  (match Alarms.isAcknowledged o with
   | Some b => Bool.eqb b (Api.isAcknowledged a)
   | None => true
   end
   && match Alarms.isDiscarded o with
      | Some b => Bool.eqb b (Api.isDiscarded a)
      | None => true
      end)%bool.

(** the actions that do not create the interval *)
Definition noTimer (a : Alarms.Action) : bool :=
  match a with
  | Alarms.Mount => false
  | Alarms.ToggleAuto checked => negb checked
  | _ => true
  end.

(** a storage that holds nothing and takes every text *)
Definition emptyStore : Alarms.Storage :=
  Some {| Alarms.entries := ∅; Alarms.setItemThrows := fun _ _ _ => false |}.

(** a storage that holds an older comment of the row 10.2.1.69-7 and is
    full: every [setItem] throws *)
Definition fullStore : Alarms.Storage :=
  Some {| Alarms.entries := {[ Alarms.COMMENT_KEY "10.2.1.69-7" := "old note" ]};
          Alarms.setItemThrows := fun _ _ _ => true |}.

(** a text with an opening quote that never closes *)
Definition unbalanced : string := String JS.dquote "open".

Definition singleDown : Single.World :=
  {| Single.login_reply := fun _ _ => Async.HttpStatus 503 "Service Unavailable" "";
     Single.alarms_reply := fun _ _ => Async.NetworkError "Failed to fetch" |}.

(** a row whose creation time is not a date *)
Definition undatedRow : Alarms.Row :=
  {| Alarms.id := "10.2.1.100-5"; Alarms.dateTimeISO := "n/a";
     Alarms.dateTime := "Invalid Date"; Alarms.site := "Site-A/AHU-1";
     Alarms.point := "Fan"; Alarms.value := "1"; Alarms.unit := "";
     Alarms.priority := JS.Finite 1 0;
     Alarms.reconhecido := Alarms.Nao; Alarms.descartado := Alarms.Nao |}.

(** the filters with only the lower date bound filled in *)
Definition fromOnly (d : string) : Alarms.Filters :=
  {| Alarms.fSite := ""; Alarms.fPoint := ""; Alarms.fValue := "";
     Alarms.fDateFrom := d; Alarms.fDateTo := ""; Alarms.fPriority := "";
     Alarms.fAck := Alarms.all; Alarms.fDisc := Alarms.all |}.

(** * Properties *)

(** ** The built-ins on examples *)

Example Number_examples :
  JS.Number "2" = JS.Finite 2 0 /\ JS.Number " 12.50 " = JS.Finite 125 (-1)
  /\ JS.Number "" = JS.Finite 0 0 /\ JS.Number "0x1F" = JS.Finite 31 0
  /\ JS.Number "1e3" = JS.Finite 1 3 /\ JS.Number "2x" = JS.NaN
  /\ JS.Number "." = JS.NaN /\ JS.Number "-" = JS.NaN
  /\ JS.Number "-Infinity" = JS.Infinity true /\ JS.Number "1." = JS.Finite 1 0
  /\ JS.Number ".5" = JS.Finite 5 (-1) /\ JS.Number "12,5" = JS.NaN.
Proof. vm_compute. repeat split. Qed.

Example parseFloat_examples :
  JS.parseFloat "12.5" = JS.Finite 125 (-1) /\ JS.parseFloat "12abc" = JS.Finite 12 0
  /\ JS.parseFloat "abc" = JS.NaN /\ JS.parseFloat "  -3.0e2x" = JS.Finite (-3) 2
  /\ JS.parseFloat "" = JS.NaN /\ JS.parseFloat "1e" = JS.Finite 1 0.
Proof. vm_compute. repeat split. Qed.

Example toString_examples :
  JS.toString (JS.Finite 2 0) = "2" /\ JS.toString (JS.Finite 125 (-1)) = "12.5"
  /\ JS.toString (JS.Finite (-3) 2) = "-300" /\ JS.toString (JS.Finite 5 (-1)) = "0.5"
  /\ JS.toString (JS.Finite 1 21) = "1e+21" /\ JS.toString (JS.Finite 15 (-8)) = "1.5e-7"
  /\ JS.toString (JS.Finite 1 (-6)) = "0.000001" /\ JS.toString (JS.Finite 0 0) = "0"
  /\ JS.toString (JS.Finite 120 0) = "120".
Proof. vm_compute. repeat split. Qed.

Example mapUnit_examples :
  Api.mapUnit (Some "unitEnumSet.degF") = "°F"
  /\ Api.mapUnit (Some "unitEnumSet.degC") = "°C"
  /\ Api.mapUnit (Some "kW") = "kW" /\ Api.mapUnit None = ""
  /\ String.length "°F" = 3%nat.
Proof. repeat split. Qed.

Example host_examples :
  Host.getTime "1970-01-02T00:00:01.500Z" = JS.Finite 864015 2
  /\ Host.getTime "2024-02-29T12:34:56Z" = JS.Finite 1709210096 3
  /\ Host.toLocaleString "2024-02-29T12:34:56Z" = "29/02/2024, 12:34:56"
  /\ Host.getTime "yesterday" = JS.NaN
  /\ Host.parseScalar "12.50" = Some "12.5"
  /\ Host.parseScalar "on" = None
  /\ Host.lower "Chiller-01" = "chiller-01".
Proof. vm_compute. repeat split. Qed.

(** two requests issued before either is awaited are outstanding
    together; awaited one by one they are not *)
Example peak_examples :
  peak (snd (Async.run
               (p1 ← Async.fetch (Async.ReqLogin Async.api100) (Async.Json tt);
                p2 ← Async.fetch (Async.ReqLogin Async.api69) (Async.Json tt);
                _ ← Async.await p1;
                Async.await p2))) 0 = 2%nat
  /\ peak (snd (Async.run
                  (p1 ← Async.fetch (Async.ReqLogin Async.api100) (Async.Json tt);
                   _ ← Async.await p1;
                   p2 ← Async.fetch (Async.ReqLogin Async.api69) (Async.Json tt);
                   Async.await p2))) 0 = 1%nat.
Proof. split; reflexivity. Qed.

(** a blur on a storage that takes the text, and on one that is full *)
Example blur_examples :
  Alarms.loadComment (Alarms.saveComment emptyStore "10.2.1.69-7" "called site")
    "10.2.1.69-7" = "called site"
  /\ Alarms.loadComment (Alarms.saveComment fullStore "10.2.1.69-7" "called site")
       "10.2.1.69-7" = "old note"
  /\ Alarms.loadComment (Alarms.saveComment None "10.2.1.69-7" "called site")
       "10.2.1.69-7" = "".
Proof. vm_compute. repeat split. Qed.

(** ** The fetch layer *)

Ltac unfold_async :=
  unfold Alarms.fetchFrom, Alarms.loginP, Alarms.getAlarmsP, Async.run, mbind, mret,
    Async_bind, Async_ret, Async.bind, Async.ret, Async.fetch, Async.await,
    Async.throw, Async.try_catch in *; simpl in *.

Section FetchFacts.
Import Async Alarms.

Lemma fetchFrom_frame (w : World) (p : ApiPrefix) (o : Opts) (tr : list Event) :
  fetchFrom w p o tr
  = (fst (run (fetchFrom w p o)), (tr ++ traceOf w p o)%list).
Proof.
  unfold traceOf. unfold_async.
  destruct (login_reply w p "api" "GMX3-Rel.10") as [m|st stt tx|m|body]; simpl;
    try (rewrite <- app_assoc; reflexivity).
  destruct (JS.truthy (Api.accessToken body)); simpl;
    try (rewrite <- app_assoc; reflexivity).
  destruct (alarms_reply w p (Api.accessToken body) o); simpl;
    rewrite <- !app_assoc; reflexivity.
Qed.

Lemma fetchBoth_run (w : World) (o : Opts) :
  run (fetchBoth w o)
  = (inr (localsOf (fetched w api100 o) (fetched w api69 o)),
     (traceOf w api100 o ++ traceOf w api69 o)%list).
Proof.
  unfold fetched, traceOf.
  generalize (fetchFrom_frame w api100 o), (fetchFrom_frame w api69 o).
  unfold traceOf.
  destruct (run (fetchFrom w api100 o)) as [r1 t1].
  destruct (run (fetchFrom w api69 o)) as [r2 t2]. simpl. intros F1 F2.
  unfold run, fetchBoth, try_catch, mbind, mret, Async_bind, Async_ret, bind, ret.
  rewrite F1. simpl.
  destruct r1 as [e1|a100]; simpl; rewrite F2; destruct r2 as [e2|a69]; simpl;
    unfold localsOf; simpl; rewrite ?app_nil_r; reflexivity.
Qed.

(** each backend is asked to log in, and for its alarms when the login
    gave a token *)
Lemma traceOf_shape (w : World) (p : ApiPrefix) (o : Opts) :
  traceOf w p o = [Issued (ReqLogin p); Settled (ReqLogin p)]
  \/ traceOf w p o = [Issued (ReqLogin p); Settled (ReqLogin p);
                      Issued (ReqAlarms p); Settled (ReqAlarms p)].
Proof.
  unfold traceOf. unfold_async.
  destruct (login_reply w p "api" "GMX3-Rel.10") as [m|st stt tx|m|body]; simpl; auto.
  destruct (JS.truthy (Api.accessToken body)); simpl; auto.
  destruct (alarms_reply w p (Api.accessToken body) o); simpl; auto.
Qed.

Context `{Platform}.

Lemma fetchData_run (w : World) (ls : Storage) (st : State) :
  fetchData w ls st
  = (fetchData_end ls
       (inr (localsOf (fetched w api100 (fetchData_opts st))
                      (fetched w api69 (fetchData_opts st))))
       (fetchData_begin st),
     (traceOf w api100 (fetchData_opts st) ++ traceOf w api69 (fetchData_opts st))%list).
Proof. unfold fetchData. rewrite fetchBoth_run. reflexivity. Qed.

Lemma noteFor_injective (o1 o2 : Outcome) (n1 m1 n2 m2 : nat) :
  noteFor o1 n1 m1 = noteFor o2 n2 m2 -> o1 = o2.
Proof.
  destruct o1 as [|[|]|], o2 as [|[|]|]; simpl; intros E;
    try reflexivity; discriminate E.
Qed.

(** C8: after every round the status text is the one of the round's
    outcome: the connected text with the two counts exactly when both
    backends succeeded, the partial text naming the backend that
    succeeded and the one that failed exactly when one of each, and the
    text of the double failure exactly when both failed; the texts of
    different outcomes are different, so the double failure is told
    apart from a partial one. *)
Theorem round_outcome_classified (w : World) (ls : Storage) (st : State) :
  let r100 := fetched w api100 (fetchData_opts st) in
  let r69 := fetched w api69 (fetchData_opts st) in
  let st' := fst (fetchData w ls st) in
  connectionNote st' = noteFor (outcomeOf r100 r69) (countOf r100) (countOf r69)
  /\ (connectionNote st' = noteFor AllSucceeded (countOf r100) (countOf r69)
      <-> is_Some r100 /\ is_Some r69)
  /\ (forall f, connectionNote st' = noteFor (PartialFailure f) 0 0
      <-> fetched w (prefixOf f) (fetchData_opts st) = None
          /\ exists g, g <> f /\ is_Some (fetched w (prefixOf g) (fetchData_opts st)))
  /\ (connectionNote st' = noteFor AllFailed 0 0 <-> r100 = None /\ r69 = None)
  /\ (forall f n m, noteFor AllFailed n m <> noteFor (PartialFailure f) n m).
Proof.
  intros r100 r69 st'.
  assert (Hn : connectionNote st'
               = noteFor (outcomeOf r100 r69) (countOf r100) (countOf r69)).
  { subst st'. rewrite fetchData_run. fold r100 r69. simpl.
    destruct r100, r69; reflexivity. }
  split; [exact Hn|]. rewrite Hn.
  split; [|split; [|split]].
  - split.
    + intros E. apply noteFor_injective in E.
      destruct r100, r69; try discriminate E; split; eexists; reflexivity.
    + intros [[l1 ->] [l2 ->]]. reflexivity.
  - intros f. split.
    + intros E. apply noteFor_injective in E.
      subst r100 r69. destruct (fetched w api100 _) eqn:E1, (fetched w api69 _) eqn:E2;
        simpl in E; try discriminate E; injection E as <-; simpl.
      * split; [assumption|]. exists ip100. split; [discriminate|].
        simpl. rewrite E1. eexists; reflexivity.
      * split; [assumption|]. exists ip69. split; [discriminate|].
        simpl. rewrite E2. eexists; reflexivity.
    + intros [Hf [g [Hg [l Hl]]]]. subst r100 r69.
      destruct f, g; try congruence; simpl in Hf, Hl; rewrite Hf, Hl; reflexivity.
  - split.
    + intros E. apply noteFor_injective in E.
      destruct r100, r69; try discriminate E; split; reflexivity.
    + intros [-> ->]. reflexivity.
  - intros f n m E. apply noteFor_injective in E. discriminate E.
Qed.

End FetchFacts.

Section RoundFacts.
Import Async Alarms.
Context `{Platform}.

Lemma rows_after_round (w : World) (ls : Storage) (st : State) :
  rows (fst (fetchData w ls st))
  = map mapRow (tagged ip100 (fetched w api100 (fetchData_opts st))
                ++ tagged ip69 (fetched w api69 (fetchData_opts st)))%list.
Proof. rewrite fetchData_run. reflexivity. Qed.

Lemma fromBackend_other (f g : FromIp) (a : Api.AlarmDTO) :
  f <> g -> fromBackend f (mapRow (g, a)) = false.
Proof. destruct f, g; intros Hne; try congruence; reflexivity. Qed.

Lemma fromBackend_same (f : FromIp) (a : Api.AlarmDTO) :
  fromBackend f (mapRow (f, a)) = true.
Proof.
  destruct f; unfold fromBackend, mapRow, composedId; simpl;
    destruct (Api.id a); reflexivity.
Qed.

Lemma tagged_source (f g : FromIp) (r : option (list Api.AlarmDTO)) (a : Api.AlarmDTO) :
  In (g, a) (tagged f r) -> g = f.
Proof.
  destruct r as [l|]; simpl; [|tauto].
  rewrite in_map_iff. intros [x [E _]]. congruence.
Qed.

(** C1 (amended): a round in which at least one backend answers
    replaces the displayed rows by the rows of the backends that
    answered in that round, /api100 first, whatever was displayed
    before.  So when the other backend fails, no row of the new table
    comes from it, and the failure is reported only through the
    connection note, which names the backend that failed: the error
    text stays empty. *)
Theorem failed_backend_rows_dropped (w : World) (ls : Storage) (st : State)
  (Hsome : is_Some (fetched w api100 (fetchData_opts st))
           \/ is_Some (fetched w api69 (fetchData_opts st))) :
  rows (fst (fetchData w ls st))
  = map mapRow (tagged ip100 (fetched w api100 (fetchData_opts st))
                ++ tagged ip69 (fetched w api69 (fetchData_opts st)))%list
  /\ (forall f, fetched w (prefixOf f) (fetchData_opts st) = None ->
        (forall r, In r (rows (fst (fetchData w ls st))) -> fromBackend f r = false)
        /\ connectionNote (fst (fetchData w ls st)) = noteFor (PartialFailure f) 0 0)
  /\ err (fst (fetchData w ls st)) = "".
Proof.
  split; [apply rows_after_round|].
  split; [|rewrite fetchData_run; reflexivity].
  intros f Hfail. split.
  - intros r. rewrite rows_after_round, in_map_iff.
    intros [[g a] [<- Hin]]. apply fromBackend_other.
    intros ->. apply in_app_or in Hin.
    destruct Hin as [Hin|Hin]; pose proof (tagged_source _ _ _ _ Hin) as ->;
      simpl in Hfail; rewrite Hfail in Hin; exact Hin.
  - rewrite fetchData_run. simpl.
    destruct f; simpl in Hfail; rewrite Hfail in *;
      destruct Hsome as [[l Hl]|[l Hl]]; try discriminate Hl;
      rewrite Hl; reflexivity.
Qed.

Lemma peak_two_traces (w : World) (o : Opts) :
  peak (traceOf w api100 o ++ traceOf w api69 o) 0 = 1%nat.
Proof.
  destruct (traceOf_shape w api100 o) as [-> | ->],
           (traceOf_shape w api69 o) as [-> | ->]; reflexivity.
Qed.

(** C3 (amended): in every round the two backends are called one after
    the other: the requests to /api100 are all settled before the first
    request to /api69 is issued, so at most one request is outstanding
    at any time.  Both backends are always called, whatever the first
    one answers, every request issued is settled before the round ends,
    and the two fetches never make the round throw. *)
Theorem backends_called_in_sequence (w : World) (ls : Storage) (st : State) :
  let o := fetchData_opts st in
  let tr := snd (fetchData w ls st) in
  tr = (traceOf w api100 o ++ traceOf w api69 o)%list
  /\ peak tr 0 = 1%nat
  /\ In (Issued (ReqLogin api100)) tr
  /\ In (Issued (ReqLogin api69)) tr
  /\ (forall r, In (Issued r) tr -> In (Settled r) tr)
  /\ fst (run (fetchBoth w o))
     = inr (localsOf (fetched w api100 o) (fetched w api69 o)).
Proof.
  intros o tr. subst tr. rewrite fetchData_run. fold o. simpl.
  split; [reflexivity|].
  split; [apply peak_two_traces|].
  rewrite fetchBoth_run. simpl.
  destruct (traceOf_shape w api100 o) as [-> | ->],
           (traceOf_shape w api69 o) as [-> | ->]; simpl;
    (split; [tauto|]); (split; [tauto|]); (split; [|reflexivity]);
    intros r Hr; repeat (destruct Hr as [Hr|Hr]; [inversion Hr; subst; tauto|]);
    destruct Hr.
Qed.

End RoundFacts.

(** C1 (as stated, refuted): both backends answer in a first round; in
    the next one /api69 fails, and its row, displayed until then, is
    gone from the table. *)
Lemma stale_rows_not_kept :
  let st1 := fst (Alarms.fetchData (H:=Host.utc) Sample.bothUp None Alarms.initialState) in
  let st2 := fst (Alarms.fetchData (H:=Host.utc) Sample.only100 None st1) in
  let rowB := Alarms.mapRow (H:=Host.utc) (Alarms.ip69, Sample.b7) in
  fetched Sample.only100 Async.api69 (Alarms.fetchData_opts st1) = None
  /\ In rowB (Alarms.rows st1)
  /\ fromBackend Alarms.ip69 rowB = true
  /\ ~ In rowB (Alarms.rows st2).
Proof.
  vm_compute. split; [reflexivity|]. split; [tauto|]. split; [reflexivity|].
  intros [E|[E|[E|[]]]]; discriminate E.
Qed.

Lemma failed_backend_rows_dropped_witness :
  (is_Some (fetched Sample.only100 Async.api100
              (Alarms.fetchData_opts Alarms.initialState))
   \/ is_Some (fetched Sample.only100 Async.api69
                 (Alarms.fetchData_opts Alarms.initialState)))
  /\ fetched Sample.only100 (prefixOf Alarms.ip69)
       (Alarms.fetchData_opts Alarms.initialState) = None
  /\ (forall r,
        In r (Alarms.rows (fst (Alarms.fetchData (H:=Host.utc) Sample.only100 None
                                  Alarms.initialState))) ->
        fromBackend Alarms.ip69 r = false)
  /\ Alarms.connectionNote
       (fst (Alarms.fetchData (H:=Host.utc) Sample.only100 None Alarms.initialState))
     = "Parcial — ok: 10.2.1.100 / falha: 10.2.1.69"
  /\ Alarms.err
       (fst (Alarms.fetchData (H:=Host.utc) Sample.only100 None Alarms.initialState))
     = "".
Proof.
  assert (Hsome : is_Some (fetched Sample.only100 Async.api100
                             (Alarms.fetchData_opts Alarms.initialState))
                  \/ is_Some (fetched Sample.only100 Async.api69
                                (Alarms.fetchData_opts Alarms.initialState)))
    by (left; eexists; reflexivity).
  split; [exact Hsome|]. split; [reflexivity|].
  destruct (failed_backend_rows_dropped (H:=Host.utc) Sample.only100 None
              Alarms.initialState Hsome) as (_ & Hf & He).
  destruct (Hf Alarms.ip69 eq_refl) as [Hr Hn].
  split; [exact Hr|]. split; [exact Hn|exact He].
Defined.

(** C3 (as stated, refuted): with both backends answering, no two
    requests are ever outstanding together, so the two fetches do not
    run concurrently. *)
Lemma fetches_do_not_overlap :
  ~ (2 <= peak (snd (Alarms.fetchData (H:=Host.utc) Sample.bothUp None
                       Alarms.initialState)) 0)%nat.
Proof. vm_compute. lia. Qed.

(** ** The scheduler *)

Section SchedulerFacts.
Import Async Alarms.
Context `{Platform}.

(** the refresh button does nothing while [loading] is set *)
Lemma click_while_loading (s : Sys) :
  loading (ui s) = true -> step ClickRefresh s = s.
Proof. intros Hl. simpl. rewrite Hl. reflexivity. Qed.

(** a tick at the end of the countdown calls [fetchData], whether or not
    a call is running *)
Lemma tick_at_zero (s : Sys) (o : Opts) :
  interval s = Some o -> secondsLeft (ui s) <= 1 ->
  running (step Tick s) = (running s ++ [o])%list
  /\ secondsLeft (ui (step Tick s)) = 60.
Proof.
  intros Hi Hs. simpl. rewrite Hi.
  destruct (Z.leb_spec (secondsLeft (ui s)) 1); [|lia].
  split; reflexivity.
Qed.

(** C2: the component is mounted and its first round is still running
    when the countdown ends after 60 ticks: the last tick starts a
    second round next to the first, and each of the two writes its own
    outcome when it settles.  The refresh button, in the same state,
    starts nothing, because [loading] is set; once the first of the two
    rounds has settled [loading] is cleared although the other is still
    running, and the button starts one more. *)
Theorem tick_starts_overlapping_round (ls : Storage) (w1 w2 : World) :
  let s59 := exec (Mount :: repeat Tick 59) (init ls) in
  let s60 := step Tick s59 in
  let s61 := step (Settle 0 w1) s60 in
  List.length (running s59) = 1%nat
  /\ loading (ui s59) = true
  /\ secondsLeft (ui s59) = 1
  /\ step ClickRefresh s59 = s59
  /\ List.length (running s60) = 2%nat
  /\ List.length (running s61) = 1%nat
  /\ loading (ui s61) = false
  /\ List.length (running (step ClickRefresh s61)) = 2%nat
  /\ running (step (Settle 0 w2) s61) = [].
Proof.
  intros s59 s60 s61.
  assert (E59 : s59 = {| ui := setSecondsLeft 1 (fetchData_begin initialState);
                         running := [fetchData_opts initialState];
                         interval := Some (fetchData_opts initialState);
                         storage := ls |}) by reflexivity.
  assert (E60 : s60 = {| ui := setSecondsLeft 60 (fetchData_begin initialState);
                         running := [fetchData_opts initialState;
                                     fetchData_opts initialState];
                         interval := Some (fetchData_opts initialState);
                         storage := ls |}) by (subst s60; rewrite E59; reflexivity).
  subst s61. rewrite E60, E59.
  do 5 (split; [reflexivity|]).
  simpl. destruct (run (fetchBoth w1 _)) as [res1 tr1]. simpl.
  do 3 (split; [reflexivity|]).
  destruct (run (fetchBoth w2 _)). reflexivity.
Qed.

End SchedulerFacts.

(** ** Identity of rows and comments *)

Section IdentityFacts.
Import Alarms.

Lemma composedId_inj (f1 f2 : FromIp) (i1 i2 : string) :
  composedId f1 i1 = composedId f2 i2 -> f1 = f2 /\ i1 = i2.
Proof.
  destruct f1, f2; unfold composedId; simpl; intros E;
    try discriminate E; injection E as E; cbv [String.append] in E; subst;
    split; reflexivity.
Qed.

Lemma COMMENT_KEY_inj (x y : string) : COMMENT_KEY x = COMMENT_KEY y -> x = y.
Proof. unfold COMMENT_KEY. cbv [String.append]. intros E. injection E as ->. reflexivity. Qed.

(** C4: two alarms of different backends never get the same composed
    id, whatever their local ids, the same one in particular: the row
    keys differ, the keys of their comments in localStorage differ, and
    saving the comment of one leaves the comment of the other as it
    was. *)
Theorem composed_identity_injective `{Platform} (f1 f2 : FromIp)
  (a1 a2 : Api.AlarmDTO) (Hne : f1 <> f2) :
  composedId f1 (Api.id a1) <> composedId f2 (Api.id a2)
  /\ id (mapRow (f1, a1)) <> id (mapRow (f2, a2))
  /\ COMMENT_KEY (id (mapRow (f1, a1))) <> COMMENT_KEY (id (mapRow (f2, a2)))
  /\ (forall (ls : Storage) (text : string),
        loadComment (saveComment ls (id (mapRow (f1, a1))) text) (id (mapRow (f2, a2)))
        = loadComment ls (id (mapRow (f2, a2)))).
Proof.
  assert (Hid : composedId f1 (Api.id a1) <> composedId f2 (Api.id a2)).
  { intros E. apply composedId_inj in E. tauto. }
  assert (Hkey : COMMENT_KEY (composedId f1 (Api.id a1))
                 <> COMMENT_KEY (composedId f2 (Api.id a2))).
  { intros E. apply COMMENT_KEY_inj in E. contradiction. }
  repeat split; try assumption.
  intros [m|] text; [|reflexivity].
  unfold loadComment, saveComment. simpl id.
  destruct (setItemThrows m _ _ _); [reflexivity|]. cbn [entries].
  rewrite lookup_insert_ne by assumption. reflexivity.
Qed.

End IdentityFacts.

Lemma composed_identity_injective_witness :
  Alarms.ip100 <> Alarms.ip69
  /\ Alarms.composedId Alarms.ip100 (Api.id Sample.a3)
     <> Alarms.composedId Alarms.ip69 (Api.id Sample.b7).
Proof.
  split; [discriminate|].
  apply (composed_identity_injective (H:=Host.utc) Alarms.ip100 Alarms.ip69
           Sample.a3 Sample.b7).
  discriminate.
Defined.

(** ** Clearing the filters *)

Section ClearFacts.

(** C5 (amended): clearing resets every filter field to empty or 'all'
    in both variants of the component.  The two-backend variant also
    resets the sort to dateTime, descending, and leaves everything else
    as it is; the single-backend variant leaves the sort key and
    direction as they are.  A refresh (mount, tick, refresh button,
    toggling auto-refresh, a round settling) changes neither the filters
    nor the sort. *)
Theorem clear_resets_filters `{Platform} (st : Alarms.State) (st1 : Single.State)
  (s : Alarms.Sys) (a : Alarms.Action) (w : Alarms.World) (ls : Alarms.Storage) :
  (Alarms.filters (Alarms.clearFilters st) = Alarms.noFilters
   /\ Alarms.sortKey (Alarms.clearFilters st) = Alarms.K_dateTime
   /\ Alarms.sortDir (Alarms.clearFilters st) = Alarms.desc
   /\ Alarms.rows (Alarms.clearFilters st) = Alarms.rows st
   /\ Alarms.comments (Alarms.clearFilters st) = Alarms.comments st
   /\ Alarms.secondsLeft (Alarms.clearFilters st) = Alarms.secondsLeft st)
  /\ (Single.filters (Single.clearFilters st1) = Single.noFilters
      /\ Single.sortKey (Single.clearFilters st1) = Single.sortKey st1
      /\ Single.sortDir (Single.clearFilters st1) = Single.sortDir st1)
  /\ (let st' := fst (Alarms.fetchData w ls st) in
      Alarms.filters st' = Alarms.filters st
      /\ Alarms.sortKey st' = Alarms.sortKey st
      /\ Alarms.sortDir st' = Alarms.sortDir st)
  /\ (a <> Alarms.ClickClear ->
      Alarms.filters (Alarms.ui (Alarms.step a s)) = Alarms.filters (Alarms.ui s)
      /\ Alarms.sortKey (Alarms.ui (Alarms.step a s)) = Alarms.sortKey (Alarms.ui s)
      /\ Alarms.sortDir (Alarms.ui (Alarms.step a s)) = Alarms.sortDir (Alarms.ui s)).
Proof.
  split; [repeat split|].
  split; [repeat split|].
  split.
  - rewrite fetchData_run. repeat split.
  - intros Ha. destruct a as [| | |c| |i w']; try congruence; simpl;
      repeat match goal with
             | |- context [if ?b then _ else _] => destruct b; simpl
             | |- context [match ?x with _ => _ end] => destruct x; simpl
             end;
      repeat split.
Qed.

End ClearFacts.

(** C5 (as stated, refuted): in the single-backend variant, clearing
    the filters of a table sorted by site, ascending, leaves it sorted
    by site, ascending. *)
Lemma clear_keeps_sort_in_single :
  Single.filters (Single.clearFilters sortedBySite) = Single.noFilters
  /\ ~ (Single.sortKey (Single.clearFilters sortedBySite) = Single.K_dateTime
        /\ Single.sortDir (Single.clearFilters sortedBySite) = Single.desc).
Proof. split; [reflexivity|]. simpl. intros [E _]. discriminate E. Qed.

Lemma clear_resets_filters_witness :
  Alarms.Tick <> Alarms.ClickClear
  /\ Alarms.filters
       (Alarms.ui (Alarms.step (H:=Host.utc) Alarms.Tick (Alarms.init None)))
     = Alarms.filters (Alarms.ui (Alarms.init None)).
Proof.
  split; [discriminate|].
  apply (clear_resets_filters (H:=Host.utc) Alarms.initialState sortedBySite
           (Alarms.init None) Alarms.Tick Sample.bothUp None).
  discriminate.
Defined.

(** ** Numbers *)

Section NumberFacts.
Import JS.

Lemma strip0_sign (fuel : nat) (m e : Z) :
  (fst (strip0 fuel m e) ?= 0) = (m ?= 0).
Proof.
  revert m e. induction fuel as [|fuel IH]; intros m e; simpl; [reflexivity|].
  destruct (Z.eqb_spec (m mod 10) 0) as [E|E]; [|reflexivity].
  rewrite IH.
  pose proof (Z_div_mod_eq_full m 10) as D.
  destruct (Z.compare_spec (m / 10) 0), (Z.compare_spec m 0);
    try reflexivity; exfalso; lia.
Qed.

Lemma mkFinite_sign (m e : Z) :
  exists m' e', mkFinite m e = Finite m' e' /\ (m' ?= 0) = (m ?= 0).
Proof.
  unfold mkFinite. destruct (Z.eqb_spec m 0) as [->|E].
  - exists 0, 0. split; reflexivity.
  - pose proof (strip0_sign (S (Z.to_nat (Z.log2 (Z.abs m)))) m e) as S0.
    destruct (strip0 _ m e) as [m' e']. exists m', e'. split; [reflexivity|exact S0].
Qed.

Lemma cmp_zero (m e : Z) : cmp (Finite m e) (Finite 0 0) = Some (m ?= 0).
Proof.
  unfold cmp, align. f_equal.
  assert (0 < 10 ^ (e - Z.min e 0)) by (apply Z.pow_pos_nonneg; lia).
  destruct (Z.compare_spec (m * 10 ^ (e - Z.min e 0)) (0 * 10 ^ (0 - Z.min e 0))),
           (Z.compare_spec m 0); try reflexivity; exfalso; nia.
Qed.

(** the sign of a difference, taken up or down, is the order of its operands *)
Lemma sub_sign (m1 e1 m2 e2 : Z) :
  cmp (mul (sub (Finite m1 e1) (Finite m2 e2)) (Finite 1 0)) (Finite 0 0)
  = cmp (Finite m1 e1) (Finite m2 e2)
  /\ cmp (mul (sub (Finite m1 e1) (Finite m2 e2)) (Finite (-1) 0)) (Finite 0 0)
     = cmp (Finite m2 e2) (Finite m1 e1).
Proof.
  unfold sub, cmp at 2 4, align. rewrite (Z.min_comm e2 e1).
  set (a := m1 * 10 ^ (e1 - Z.min e1 e2)). set (b := m2 * 10 ^ (e2 - Z.min e1 e2)).
  destruct (mkFinite_sign (a - b) (Z.min e1 e2)) as [m' [e' [-> S1]]].
  unfold mul.
  destruct (mkFinite_sign (m' * 1) (e' + 0)) as [p [q [-> S2]]].
  destruct (mkFinite_sign (m' * -1) (e' + 0)) as [p' [q' [-> S3]]].
  rewrite !cmp_zero, S2, S3. split; f_equal.
  - destruct (Z.compare_spec (m' * 1) 0), (Z.compare_spec (a - b) 0),
             (Z.compare_spec a b), (Z.compare_spec m' 0);
      try reflexivity; try discriminate S1; exfalso; lia.
  - destruct (Z.compare_spec (m' * -1) 0), (Z.compare_spec (a - b) 0),
             (Z.compare_spec b a), (Z.compare_spec m' 0);
      try reflexivity; try discriminate S1; exfalso; lia.
Qed.

Lemma strictEq_zero (m e : Z) :
  strictEq (Finite m e) (Finite 0 0) = true -> m = 0.
Proof.
  unfold strictEq. rewrite cmp_zero.
  destruct (Z.compare_spec m 0); congruence.
Qed.

End NumberFacts.

(** ** Filtering and sorting *)

Section ViewFacts.
Import Alarms.
Context `{Platform}.

Lemma passPriority_eq (f : string) (r : Row) :
  passPriority f r
  = if String.eqb (JS.trim f) "" then true
    else if JS.isNaN (JS.Number f)
         then JS.includes (JS.toString (priority r)) (JS.trim f)
         else JS.strictEq (priority r) (JS.Number f).
Proof.
  unfold passPriority, priIsNum, priNum.
  destruct (String.eqb (JS.trim f) ""); [reflexivity|].
  destruct (JS.isNaN (JS.Number f)); reflexivity.
Qed.

Lemma passes_priorityOnly (f : string) (r : Row) :
  passes (priorityOnly f) r = passPriority f r.
Proof. reflexivity. Qed.

(** C6: the priority predicate passes every row when the filter is empty
    after trimming; otherwise, when the filter reads as a number, the
    rows whose priority is that number and no other; otherwise the rows
    whose printed priority contains the trimmed filter and no other.
    With no other filter set, [filtered] is the list of the rows that
    pass it, in order.  Filter "2" over priorities 1, 2, 2, 3 keeps the
    two rows of priority 2. *)
Theorem priority_filter (f : string) (st : State) (r1 r2 r3 r4 : Row) :
  (forall r, passPriority f r
             = if String.eqb (JS.trim f) "" then true
               else if JS.isNaN (JS.Number f)
                    then JS.includes (JS.toString (priority r)) (JS.trim f)
                    else JS.strictEq (priority r) (JS.Number f))
  /\ (forall rs, filtered (setFilters (priorityOnly f) (setRows rs st))
                 = List.filter (passPriority f) rs)
  /\ filtered (setFilters (priorityOnly "2")
                 (setRows [withPriority 1 r1; withPriority 2 r2;
                           withPriority 2 r3; withPriority 3 r4] st))
     = [withPriority 2 r2; withPriority 2 r3].
Proof.
  split; [intros r; apply passPriority_eq|].
  assert (Hf : forall g rs, filtered (setFilters (priorityOnly g) (setRows rs st))
                            = List.filter (passPriority g) rs).
  { intros g rs. unfold filtered. simpl.
    apply filter_ext. intros r. apply passes_priorityOnly. }
  split; [apply Hf|]. rewrite Hf. reflexivity.
Qed.

(** C7: on the value column both operands are read with [parseFloat]
    after their first comma is turned into a point.  When neither is
    NaN the result is their difference times the direction, whose sign,
    for finite operands, is their numeric order (reversed when
    descending); otherwise the result is [localeCompare] of the two
    texts times the direction.  "12,5" and "12.5" both read as 12.5 and
    compare as 0. *)
Theorem value_comparator (d : SortDir) (a b : Row) :
  let na := JS.parseFloat (JS.replace (value a) "," ".") in
  let nb := JS.parseFloat (JS.replace (value b) "," ".") in
  (JS.isNaN na = false -> JS.isNaN nb = false ->
   compareRows K_value d a b = JS.mul (JS.sub na nb) (dirNum d))
  /\ (JS.isFiniteNum na = true -> JS.isFiniteNum nb = true ->
      JS.cmp (compareRows K_value d a b) (JS.Finite 0 0)
      = match d with asc => JS.cmp na nb | desc => JS.cmp nb na end)
  /\ (JS.isNaN na = true \/ JS.isNaN nb = true ->
      compareRows K_value d a b = JS.mul (localeCompare (value a) (value b)) (dirNum d))
  /\ (value a = "12,5" -> value b = "12.5" ->
      na = JS.Finite 125 (-1) /\ nb = JS.Finite 125 (-1)
      /\ compareRows K_value d a b = JS.Finite 0 0).
Proof.
  intros na nb. unfold compareRows. fold na nb.
  split; [intros -> ->; reflexivity|].
  split.
  { destruct na as [| |m1 e1], nb as [| |m2 e2]; try discriminate. intros _ _.
    simpl negb. simpl andb. cbv iota.
    destruct (sub_sign m1 e1 m2 e2) as [Hasc Hdesc].
    destruct d; [exact Hasc|exact Hdesc]. }
  split; [intros [-> | ->]; [|rewrite andb_false_r]; reflexivity|].
  intros Ha Hb. subst na nb. rewrite Ha, Hb.
  repeat split. destruct d; reflexivity.
Qed.

Lemma point_of_row (f : FromIp) (a : Api.AlarmDTO) :
  point (mapRow (f, a))
  = match Api.name a with
    | Some n => if JS.truthy n then n else Api.itemReference a
    | None => Api.itemReference a
    end.
Proof. reflexivity. Qed.

(** C9: when the name of an alarm is missing or empty, the point of its
    row is its itemReference, the site of the row, in both variants of
    the component; and whatever the name, the point is not empty when
    the itemReference is not. *)
Theorem point_defaults_to_site (f : FromIp) (a : Api.AlarmDTO) :
  (Api.name a = None \/ Api.name a = Some "" ->
   point (mapRow (f, a)) = Api.itemReference a
   /\ point (mapRow (f, a)) = site (mapRow (f, a))
   /\ Single.point (Single.mapRow a) = Api.itemReference a
   /\ Single.point (Single.mapRow a) = Single.site (Single.mapRow a))
  /\ (Api.itemReference a <> "" ->
      point (mapRow (f, a)) <> "" /\ Single.point (Single.mapRow a) <> "").
Proof.
  split.
  - intros [E|E]; simpl; rewrite E; repeat split.
  - intros Hs. simpl. destruct (Api.name a) as [[|c n]|]; simpl; split;
      try assumption; discriminate.
Qed.

(** C10: when the priority of an alarm is not a finite number, the
    priority of its row is 0: the row passes the priority filter "0",
    alone or with no other filter set, and under the priority sort it
    compares as equal, in both directions, with any row whose priority
    is 0. *)
Theorem priority_defaults_to_zero (f : FromIp) (a : Api.AlarmDTO)
  (Hnf : JS.Number_isFinite (Api.priority a) = false) :
  priority (mapRow (f, a)) = JS.Finite 0 0
  /\ passPriority "0" (mapRow (f, a)) = true
  /\ passes (priorityOnly "0") (mapRow (f, a)) = true
  /\ (forall (d : SortDir) (b : Row),
        JS.strictEq (priority b) (JS.Finite 0 0) = true ->
        JS.isZero (compareRows K_priority d (mapRow (f, a)) b) = true
        /\ JS.isZero (compareRows K_priority d b (mapRow (f, a))) = true).
Proof.
  assert (Hp : priority (mapRow (f, a)) = JS.Finite 0 0).
  { simpl. rewrite Hnf. reflexivity. }
  split; [exact Hp|].
  split; [rewrite passPriority_eq, Hp; reflexivity|].
  split; [rewrite passes_priorityOnly, passPriority_eq, Hp; reflexivity|].
  intros d b Hb. unfold compareRows. rewrite Hp.
  destruct (priority b) as [|[|]|m e]; try discriminate Hb.
  apply strictEq_zero in Hb. subst m.
  destruct d; split; reflexivity.
Qed.

End ViewFacts.

Lemma value_comparator_witness :
  Alarms.value (Alarms.mapRow (H:=Host.utc) (Alarms.ip100, Sample.withValue "12,5")) = "12,5"
  /\ Alarms.value (Alarms.mapRow (H:=Host.utc) (Alarms.ip69, Sample.withValue "12.5")) = "12.5"
  /\ Alarms.compareRows (H:=Host.utc) Alarms.K_value Alarms.desc
       (Alarms.mapRow (H:=Host.utc) (Alarms.ip100, Sample.withValue "12,5"))
       (Alarms.mapRow (H:=Host.utc) (Alarms.ip69, Sample.withValue "12.5"))
     = JS.Finite 0 0.
Proof.
  split; [reflexivity|]. split; [reflexivity|].
  apply (value_comparator (H:=Host.utc) Alarms.desc
           (Alarms.mapRow (H:=Host.utc) (Alarms.ip100, Sample.withValue "12,5"))
           (Alarms.mapRow (H:=Host.utc) (Alarms.ip69, Sample.withValue "12.5")));
    reflexivity.
Defined.

Lemma point_defaults_to_site_witness :
  (Api.name Sample.unnamed = None \/ Api.name Sample.unnamed = Some "")
  /\ Alarms.point (Alarms.mapRow (H:=Host.utc) (Alarms.ip69, Sample.unnamed))
     = "Site-B/Pump-3".
Proof.
  split; [right; reflexivity|].
  apply (point_defaults_to_site (H:=Host.utc) Alarms.ip69 Sample.unnamed).
  right; reflexivity.
Defined.

Lemma priority_defaults_to_zero_witness :
  JS.Number_isFinite (Api.priority Sample.unnamed) = false
  /\ Alarms.priority (Alarms.mapRow (H:=Host.utc) (Alarms.ip69, Sample.unnamed))
     = JS.Finite 0 0.
Proof.
  split; [reflexivity|].
  apply (priority_defaults_to_zero (H:=Host.utc) Alarms.ip69 Sample.unnamed).
  reflexivity.
Defined.

(** * Further properties of the code *)

(** ** The helpers of [api.ts] *)

Section HelperFacts.

Lemma includes_char_cons (c x : ascii) (s : string) :
  JS.includes (String x s) (String c "")
  = (Ascii.eqb c x || JS.includes s (String c ""))%bool.
Proof.
  change (JS.includes (String x s) (String c ""))
    with (if String.prefix (String c "") (String x s) then true
          else JS.includes s (String c "")).
  change (String.prefix (String c "") (String x s))
    with (if ascii_dec c x then String.prefix "" s else false).
  destruct (ascii_dec c x) as [->|Hne].
  - rewrite Ascii.eqb_refl. destruct s; reflexivity.
  - apply Ascii.eqb_neq in Hne. rewrite Hne. reflexivity.
Qed.

Lemma includes_removeAll (s : string) (c : ascii) :
  JS.includes (JS.removeAll s c) (String c "") = false.
Proof.
  induction s as [|x s IH]; [reflexivity|].
  cbn [JS.removeAll]. destruct (Ascii.eqb x c) eqn:E; [exact IH|].
  rewrite includes_char_cons, IH, Ascii.eqb_sym, E. reflexivity.
Qed.

Lemma length_removeAll (s : string) (c : ascii) :
  (String.length (JS.removeAll s c) <= String.length s)%nat.
Proof.
  induction s as [|x s IH]; simpl; [lia|].
  destruct (Ascii.eqb x c); simpl; lia.
Qed.

(** X1: a unit that [mapUnit] returns is mapped to itself, and it never
    ends in .degF or .degC: the two suffixes are always replaced by
    their symbols. *)
Theorem mapUnit_stable (u : option string) :
  Api.mapUnit (Some (Api.mapUnit u)) = Api.mapUnit u
  /\ JS.endsWith (Api.mapUnit u) ".degF" = false
  /\ JS.endsWith (Api.mapUnit u) ".degC" = false.
Proof.
  destruct u as [u|]; unfold Api.mapUnit; [|repeat split].
  destruct (JS.truthy u) eqn:Et; [|repeat split].
  destruct (JS.endsWith u ".degF") eqn:EF; [repeat split|].
  destruct (JS.endsWith u ".degC") eqn:EC; [repeat split|].
  rewrite Et, EF, EC. repeat split.
Qed.

(** X2: when the raw trigger value is not JSON, the normalised value is
    the raw text without its double quotes: it holds no double quote,
    it is not longer than the raw text, and it is the raw text itself
    when that has no double quote. *)
Theorem normalizeValue_not_json `{Platform} (raw : string)
  (Hbad : JSON_parse_String raw = None) :
  JS.includes (Api.normalizeValue (Some raw)) (String JS.dquote "") = false
  /\ (String.length (Api.normalizeValue (Some raw)) <= String.length raw)%nat
  /\ (JS.includes raw (String JS.dquote "") = false ->
      Api.normalizeValue (Some raw) = raw).
Proof.
  unfold Api.normalizeValue. rewrite Hbad.
  destruct (JS.truthy raw) eqn:Et.
  - split; [apply includes_removeAll|]. split; [apply length_removeAll|].
    clear. induction raw as [|x s IH]; [reflexivity|].
    rewrite includes_char_cons. cbn [JS.removeAll]. rewrite (Ascii.eqb_sym x).
    destruct (Ascii.eqb JS.dquote x); [discriminate|].
    intros Hs. rewrite IH; [reflexivity|exact Hs].
  - destruct raw; [|discriminate Et]. repeat split. simpl. lia.
Qed.

End HelperFacts.

Lemma normalizeValue_not_json_witness :
  JSON_parse_String (Platform := Host.utc) unbalanced = None
  /\ Api.normalizeValue (H:=Host.utc) (Some unbalanced) = "open".
Proof.
  split; [reflexivity|].
  destruct (normalizeValue_not_json (H:=Host.utc) unbalanced eq_refl) as (_ & _ & _).
  reflexivity.
Defined.

(** ** More on the fetch layer and on a round *)

Section MoreFetchFacts.
Import Async Alarms.

(** X3: a backend gives its items in a round exactly when its login
    answers with a token that is not empty and its alarm list, asked
    for with that very token and the options of the round, answers
    too; the items are those of that answer. *)
Theorem fetched_iff (w : World) (p : ApiPrefix) (o : Opts) (l : list Api.AlarmDTO) :
  fetched w p o = Some l
  <-> exists body data,
        login_reply w p "api" "GMX3-Rel.10" = Json body
        /\ JS.truthy (Api.accessToken body) = true
        /\ alarms_reply w p (Api.accessToken body) o = Json data
        /\ l = Api.items data.
Proof.
  unfold fetched. unfold_async. split.
  - destruct (login_reply w p "api" "GMX3-Rel.10") as [m|st stt tx|m|body];
      simpl; try discriminate.
    destruct (JS.truthy (Api.accessToken body)) eqn:Et; simpl; try discriminate.
    destruct (alarms_reply w p (Api.accessToken body) o) as [m|st stt tx|m|data] eqn:Ea;
      simpl; try discriminate.
    intros [= <-]. exists body, data. auto.
  - intros (body & data & -> & Et & Ea & ->). simpl. rewrite Et. simpl.
    rewrite Ea. reflexivity.
Qed.

(** X4: the requests to a backend start with its login, and its alarm
    list is asked for exactly when the login gave a token that is not
    empty; no request goes to the other backend. *)
Theorem alarms_requested_iff_token (w : World) (p : ApiPrefix) (o : Opts) :
  hd_error (traceOf w p o) = Some (Issued (ReqLogin p))
  /\ (In (Issued (ReqAlarms p)) (traceOf w p o)
      <-> exists body, login_reply w p "api" "GMX3-Rel.10" = Json body
                       /\ JS.truthy (Api.accessToken body) = true)
  /\ (forall q e, In e (traceOf w p o) ->
        e = Issued (ReqLogin q) \/ e = Settled (ReqLogin q)
        \/ e = Issued (ReqAlarms q) \/ e = Settled (ReqAlarms q) -> q = p).
Proof.
  unfold traceOf. unfold_async.
  destruct (login_reply w p "api" "GMX3-Rel.10") as [m|st stt tx|m|body]; simpl.
  1-3: split; [reflexivity|]; split;
    [ split; [intros [E|[E|[]]]; discriminate E | intros (b & E & _); discriminate E]
    | intros q e [<-|[<-|[]]] [E|[E|[E|E]]]; congruence ].
  destruct (JS.truthy (Api.accessToken body)) eqn:Et; simpl.
  - destruct (alarms_reply w p (Api.accessToken body) o); simpl;
      (split; [reflexivity|]); (split;
        [ split; [intros _; exists body; auto | intros _; tauto]
        | intros q e [<-|[<-|[<-|[<-|[]]]]] [E|[E|[E|E]]]; congruence ]).
  - split; [reflexivity|]. split.
    + split; [intros [E|[E|[]]]; discriminate E|].
      intros (b & [= <-] & Et'). congruence.
    + intros q e [<-|[<-|[]]] [E|[E|[E|E]]]; congruence.
Qed.

Context `{Platform}.

(** X5: after a round the table holds the rows of /api100 followed by
    the rows of /api69, as many of each as the backend gave items (none
    for a backend that failed), each row carrying the address of its
    backend in its id. *)
Theorem rows_are_the_two_batches (w : World) (ls : Storage) (st : State) :
  let r100 := fetched w api100 (fetchData_opts st) in
  let r69 := fetched w api69 (fetchData_opts st) in
  exists l100 l69,
    rows (fst (fetchData w ls st)) = (l100 ++ l69)%list
    /\ List.length l100 = countOf r100
    /\ List.length l69 = countOf r69
    /\ Forall (fun r => fromBackend ip100 r = true) l100
    /\ Forall (fun r => fromBackend ip69 r = true) l69
    /\ List.length (rows (fst (fetchData w ls st))) = (countOf r100 + countOf r69)%nat.
Proof.
  intros r100 r69. rewrite rows_after_round. fold r100 r69.
  exists (map mapRow (tagged ip100 r100)), (map mapRow (tagged ip69 r69)).
  rewrite map_app, length_app, !length_map.
  assert (Hlen : forall f r, List.length (tagged f r) = countOf r).
  { intros f [l|]; simpl; [apply length_map|reflexivity]. }
  assert (Hfrom : forall f r,
             Forall (fun x => fromBackend f x = true) (map mapRow (tagged f r))).
  { intros f r. apply List.Forall_forall. intros x Hx.
    apply in_map_iff in Hx. destruct Hx as [[g a] [<- Hin]].
    apply tagged_source in Hin. subst g. apply fromBackend_same. }
  rewrite !Hlen. repeat split; auto.
Qed.

(** X6: whatever the backends answer and whatever was shown before, a
    round ends with [loading] cleared, the countdown back at 60 and no
    error: failed fetches never reach the error text, and the status
    span shows the connection note of the round. *)
Theorem round_never_sets_error (w : World) (ls : Storage) (st : State) :
  let st' := fst (fetchData w ls st) in
  loading st' = false
  /\ secondsLeft st' = 60
  /\ err st' = ""
  /\ autoRefresh st' = autoRefresh st
  /\ statusText st' = connectionNote st'
  /\ statusText st' <> "—".
Proof.
  intros st'. subst st'. rewrite fetchData_run.
  do 4 (split; [reflexivity|]).
  unfold statusText. simpl.
  destruct (fetched w api100 _), (fetched w api69 _); simpl;
    split; try reflexivity; discriminate.
Qed.

Lemma hydrate_lookup (ls : Storage) (l : list Row) (m0 : gmap string string)
  (i : string) :
  fold_left (fun m r => <[id r := loadComment ls (id r)]> m) l m0 !! i
  = if decide (i ∈ map id l) then Some (loadComment ls i) else m0 !! i.
Proof.
  revert m0. induction l as [|r l IH]; intros m0; simpl.
  - destruct (decide (i ∈ [])) as [Hin|_]; [inversion Hin|reflexivity].
  - rewrite IH.
    destruct (decide (i ∈ map id l)) as [Hin|Hnin].
    + rewrite decide_True by (right; exact Hin). reflexivity.
    + destruct (decide (id r = i)) as [<-|Hne].
      * rewrite decide_True by left. apply lookup_insert_eq.
      * rewrite lookup_insert_ne by exact Hne.
        rewrite decide_False; [reflexivity|].
        intros Hin. inversion Hin; subst; [congruence|contradiction].
Qed.

(** X7: after a round the comments in memory are those of localStorage
    for the ids of the rows now shown, and nothing else: what was in
    memory before the round, a text typed and not yet saved included,
    is gone. *)
Theorem round_hydrates_comments (w : World) (ls : Storage) (st : State) (i : string) :
  let st' := fst (fetchData w ls st) in
  comments st' !! i
  = if decide (i ∈ map id (rows st')) then Some (loadComment ls i) else None.
Proof.
  intros st'. subst st'. rewrite fetchData_run. simpl.
  unfold hydrate. rewrite hydrate_lookup. rewrite lookup_empty. reflexivity.
Qed.

(** X8: a comment typed and then left (blur) never touches the stored
    comments of the other rows.  When [setItem] goes through, the text
    is stored under the key of its row; when [setItem] throws (quota)
    the stored text stays what it was; when localStorage cannot be
    accessed at all nothing is stored and the key reads as the empty
    text.  The next round shows, for the row if it is still in the
    table, what the storage then holds: the typed text in the first
    case, the older stored text in the second, the empty text in the
    third. *)
Theorem comment_survives_round (w : World) (ls : Storage) (st : State)
  (i v : string) :
  let st1 := handleCommentChange i v st in
  let ls1 := handleCommentBlur i st1 ls in
  let st2 := fst (fetchData w ls1 st1) in
  comments st1 !! i = Some v
  /\ (forall j, j <> i -> loadComment ls1 j = loadComment ls j)
  /\ loadComment ls1 i
     = match ls with
       | Some s =>
           if setItemThrows s (entries s) (COMMENT_KEY i) v
           then loadComment ls i else v
       | None => ""
       end
  /\ (i ∈ map id (rows st2) -> comments st2 !! i = Some (loadComment ls1 i)).
Proof.
  intros st1 ls1 st2.
  assert (H1 : comments st1 !! i = Some v) by apply lookup_insert_eq.
  split; [exact H1|]. split; [|split].
  - intros j Hj. subst ls1. unfold handleCommentBlur, saveComment, loadComment.
    destruct ls as [s|]; [|reflexivity].
    destruct (setItemThrows s _ _ _); [reflexivity|]. cbn [entries].
    rewrite lookup_insert_ne; [reflexivity|].
    intros E. apply COMMENT_KEY_inj in E. congruence.
  - subst ls1. unfold handleCommentBlur. rewrite H1.
    unfold saveComment, loadComment. destruct ls as [s|]; [|reflexivity].
    destruct (setItemThrows s _ _ _); [reflexivity|]. cbn [entries].
    rewrite lookup_insert_eq. reflexivity.
  - intros Hin. subst st2. rewrite round_hydrates_comments.
    rewrite decide_True by exact Hin. reflexivity.
Qed.

End MoreFetchFacts.

Lemma comment_survives_round_witness :
  "10.2.1.69-7"
    ∈ map Alarms.id
        (Alarms.rows
           (fst (Alarms.fetchData (H:=Host.utc) Sample.bothUp
                   (Alarms.handleCommentBlur "10.2.1.69-7"
                      (Alarms.handleCommentChange "10.2.1.69-7" "called site"
                         Alarms.initialState) fullStore)
                   (Alarms.handleCommentChange "10.2.1.69-7" "called site"
                      Alarms.initialState))))
  /\ Alarms.comments
       (fst (Alarms.fetchData (H:=Host.utc) Sample.bothUp
               (Alarms.handleCommentBlur "10.2.1.69-7"
                  (Alarms.handleCommentChange "10.2.1.69-7" "called site"
                     Alarms.initialState) fullStore)
               (Alarms.handleCommentChange "10.2.1.69-7" "called site"
                  Alarms.initialState)))
     !! "10.2.1.69-7" = Some "old note".
Proof.
  assert (Hin : "10.2.1.69-7"
    ∈ map Alarms.id
        (Alarms.rows
           (fst (Alarms.fetchData (H:=Host.utc) Sample.bothUp
                   (Alarms.handleCommentBlur "10.2.1.69-7"
                      (Alarms.handleCommentChange "10.2.1.69-7" "called site"
                         Alarms.initialState) fullStore)
                   (Alarms.handleCommentChange "10.2.1.69-7" "called site"
                      Alarms.initialState))))).
  { rewrite rows_after_round. apply list_elem_of_In.
    right. right. right. left. reflexivity. }
  split; [exact Hin|].
  destruct (comment_survives_round (H:=Host.utc) Sample.bothUp fullStore
              Alarms.initialState "10.2.1.69-7" "called site")
    as (_ & _ & Hload & Hround).
  rewrite (Hround Hin), Hload. reflexivity.
Defined.

(** ** More on the view *)

Section MoreViewFacts.
Import Alarms.
Context `{Platform}.

(** X9: a click on a column header makes it the sort column; a column
    that was not the sort column starts ascending, and every further
    click on it reverses the direction.  Only the header of the sort
    column shows a direction arrow.  The filters and the rows are left
    as they are. *)
Theorem onSort_cycle (k k' : SortKey) (st : State) :
  sortKey (onSort k st) = k
  /\ (sortKey st <> k -> sortDir (onSort k st) = asc)
  /\ sortKey (onSort k (onSort k st)) = k
  /\ sortDir (onSort k (onSort k st)) <> sortDir (onSort k st)
  /\ (arrow k' (onSort k st) = "↕" <-> k' <> k)
  /\ filters (onSort k st) = filters st
  /\ rows (onSort k st) = rows st
  /\ filtered (onSort k st) = filtered st.
Proof.
  assert (Hk : sortKey (onSort k st) = k).
  { unfold onSort. destruct (decide (sortKey st = k)); [assumption|reflexivity]. }
  split; [exact Hk|]. split.
  { intros Hne. unfold onSort. rewrite decide_False by exact Hne. reflexivity. }
  assert (H2 : onSort k (onSort k st)
               = setSortDir (match sortDir (onSort k st) with
                             | asc => desc | desc => asc end) (onSort k st)).
  { unfold onSort at 1. rewrite decide_True by exact Hk. reflexivity. }
  split; [rewrite H2; exact Hk|].
  split; [rewrite H2; simpl; destruct (sortDir (onSort k st)); discriminate|].
  split.
  { unfold arrow. rewrite Hk. destruct (decide (k = k')) as [->|Hne].
    - split; [|congruence]. destruct (sortDir (onSort k' st)); discriminate.
    - split; [congruence|reflexivity]. }
  unfold filtered, onSort.
  destruct (decide (sortKey st = k)); repeat split.
Qed.

Lemma filter_all (A : Type) (f : A -> bool) (l : list A) :
  (forall x, f x = true) -> List.filter f l = l.
Proof.
  intros Hf. induction l as [|x l IH]; simpl; [reflexivity|].
  rewrite Hf, IH. reflexivity.
Qed.

(** X10: after the filters are cleared the table shows every row that
    was fetched, whatever the rows are. *)
Theorem clear_shows_every_row (st : State) :
  filtered (clearFilters st) = rows st
  /\ filtered (clearFilters st) = filtered (setFilters noFilters st).
Proof.
  split; [|reflexivity].
  unfold filtered. simpl. apply filter_all. intros r. reflexivity.
Qed.

Lemma passes_true (f : Filters) (r : Row) :
  passes f r = true
  <-> ((negb (JS.truthy (fSite f)) || inc (site r) (fSite f)) = true
       /\ (negb (JS.truthy (fPoint f)) || inc (point r) (fPoint f)) = true
       /\ (negb (JS.truthy (fValue f)) || inc (value r) (fValue f)) = true
       /\ (if JS.truthy (fDateFrom f)
           then JS.geq (Date_getTime (dateTimeISO r))
                       (Date_getTime (fDateFrom f ++ "T00:00:00"))
           else true) = true
       /\ (if JS.truthy (fDateTo f)
           then JS.leq (Date_getTime (dateTimeISO r))
                       (Date_getTime (fDateTo f ++ "T23:59:59.999"))
           else true) = true
       /\ passTri (fAck f) (reconhecido r) = true
       /\ passTri (fDisc f) (descartado r) = true
       /\ passPriority (fPriority f) r = true)%bool.
Proof.
  unfold passes. rewrite !andb_true_iff.
  destruct (JS.truthy (fDateFrom f)), (JS.truthy (fDateTo f)); tauto.
Qed.

(** X11: emptying one filter never hides a row: a row shown with the
    current filters is still shown when any one of the eight filters is
    set back to empty or to 'all'. *)
Theorem relaxing_a_filter_keeps_rows (st : State) (r : Row)
  (Hshown : In r (filtered st)) :
  In r (filtered (setFSite "" st))
  /\ In r (filtered (setFPoint "" st))
  /\ In r (filtered (setFValue "" st))
  /\ In r (filtered (setFDateFrom "" st))
  /\ In r (filtered (setFDateTo "" st))
  /\ In r (filtered (setFPriority "" st))
  /\ In r (filtered (setFAck all st))
  /\ In r (filtered (setFDisc all st)).
Proof.
  unfold filtered in *. apply filter_In in Hshown. destruct Hshown as [Hin Hp].
  apply passes_true in Hp.
  destruct Hp as (H1 & H2 & H3 & H4 & H5 & H6 & H7 & H8).
  repeat split; apply filter_In; (split; [exact Hin|]); apply passes_true; simpl;
    repeat split; assumption || reflexivity.
Qed.

Lemma geq_NaN (x : JS.number) : JS.geq x JS.NaN = false /\ JS.geq JS.NaN x = false.
Proof. destruct x; split; reflexivity. Qed.

Lemma leq_NaN (x : JS.number) : JS.leq x JS.NaN = false /\ JS.leq JS.NaN x = false.
Proof. destruct x; split; reflexivity. Qed.

(** X12: a date bound that is not a date hides every row, and a row
    whose creation time is not a date is hidden as soon as one of the
    two date bounds is set. *)
Theorem invalid_dates_hide_rows (f : Filters) (r : Row) :
  (JS.truthy (fDateFrom f) = true ->
   JS.isNaN (Date_getTime (fDateFrom f ++ "T00:00:00")) = true ->
   passes f r = false)
  /\ (JS.truthy (fDateTo f) = true ->
      JS.isNaN (Date_getTime (fDateTo f ++ "T23:59:59.999")) = true ->
      passes f r = false)
  /\ (JS.isNaN (Date_getTime (dateTimeISO r)) = true ->
      JS.truthy (fDateFrom f) = true \/ JS.truthy (fDateTo f) = true ->
      passes f r = false).
Proof.
  assert (Hnot : forall b, b <> true -> b = false) by (intros []; congruence).
  split; [|split].
  - intros Ht Hn. apply Hnot. rewrite passes_true, Ht.
    destruct (Date_getTime (fDateFrom f ++ "T00:00:00")); try discriminate Hn.
    rewrite (proj1 (geq_NaN _)). intros (_ & _ & _ & E & _). discriminate E.
  - intros Ht Hn. apply Hnot. rewrite passes_true, Ht.
    destruct (Date_getTime (fDateTo f ++ "T23:59:59.999")); try discriminate Hn.
    rewrite (proj1 (leq_NaN _)). intros (_ & _ & _ & _ & E & _). discriminate E.
  - intros Hn Hb. apply Hnot. rewrite passes_true.
    destruct (Date_getTime (dateTimeISO r)); try discriminate Hn.
    intros (_ & _ & _ & E1 & E2 & _).
    destruct Hb as [Hb|Hb]; rewrite Hb in *; [discriminate E1|discriminate E2].
Qed.

(** X13: when every item a backend gave is in the state that the
    options of the round asked for, no row of the new table is hidden
    by the acknowledged and discarded selectors: the two selectors
    agree with the flags sent to the backends. *)
Theorem selectors_agree_with_request (w : World) (ls : Storage) (st : State)
  (r : Row)
  (H100 : forall l, fetched w Async.api100 (fetchData_opts st) = Some l ->
                    forallb (honours (fetchData_opts st)) l = true)
  (H69 : forall l, fetched w Async.api69 (fetchData_opts st) = Some l ->
                   forallb (honours (fetchData_opts st)) l = true)
  (Hin : In r (rows (fst (fetchData w ls st)))) :
  passTri (fAck (filters (fst (fetchData w ls st)))) (reconhecido r) = true
  /\ passTri (fDisc (filters (fst (fetchData w ls st)))) (descartado r) = true.
Proof.
  assert (Hf : filters (fst (fetchData w ls st)) = filters st)
    by (rewrite fetchData_run; reflexivity).
  rewrite Hf. rewrite rows_after_round in Hin.
  apply in_map_iff in Hin. destruct Hin as [[g a] [<- Hin]].
  assert (Ha : honours (fetchData_opts st) a = true).
  { apply in_app_or in Hin. destruct Hin as [Hin|Hin].
    - destruct (fetched w Async.api100 (fetchData_opts st)) as [l|] eqn:E; [|destruct Hin].
      simpl in Hin. apply in_map_iff in Hin. destruct Hin as [x [[= _ ->] Hx]].
      specialize (H100 l eq_refl). rewrite forallb_forall in H100. auto.
    - destruct (fetched w Async.api69 (fetchData_opts st)) as [l|] eqn:E; [|destruct Hin].
      simpl in Hin. apply in_map_iff in Hin. destruct Hin as [x [[= _ ->] Hx]].
      specialize (H69 l eq_refl). rewrite forallb_forall in H69. auto. }
  unfold honours, fetchData_opts in Ha. simpl in Ha.
  apply andb_true_iff in Ha. destruct Ha as [Hack Hdisc]. simpl.
  destruct (fAck (filters st)), (fDisc (filters st)),
           (Api.isAcknowledged a), (Api.isDiscarded a);
    simpl in *; try discriminate; split; reflexivity.
Qed.

Lemma cmp_antisym (m1 e1 m2 e2 : Z) :
  JS.cmp (JS.Finite m2 e2) (JS.Finite m1 e1)
  = option_map CompOpp (JS.cmp (JS.Finite m1 e1) (JS.Finite m2 e2)).
Proof.
  unfold JS.cmp, JS.align. rewrite (Z.min_comm e2 e1). simpl.
  rewrite Z.compare_antisym. reflexivity.
Qed.

(** X14: the priority of a projected row is always a finite number, so
    under the priority sort two fetched rows always compare: the sign
    of the result is the order of the two priorities, sorting
    descending reverses it, and so does swapping the two rows. *)
Theorem priority_sort_of_fetched_rows (x y : FromIp * Api.AlarmDTO) :
  JS.isFiniteNum (priority (mapRow x)) = true
  /\ exists c,
       JS.cmp (priority (mapRow x)) (priority (mapRow y)) = Some c
       /\ JS.cmp (compareRows K_priority asc (mapRow x) (mapRow y)) (JS.Finite 0 0)
          = Some c
       /\ JS.cmp (compareRows K_priority desc (mapRow x) (mapRow y)) (JS.Finite 0 0)
          = Some (CompOpp c)
       /\ JS.cmp (compareRows K_priority asc (mapRow y) (mapRow x)) (JS.Finite 0 0)
          = Some (CompOpp c).
Proof.
  assert (Hfin : forall z, exists m e, priority (mapRow z) = JS.Finite m e).
  { intros [g a]. simpl. destruct (Api.priority a) as [| |b|[| |m e]|t]; simpl; eauto. }
  destruct (Hfin x) as (m1 & e1 & E1), (Hfin y) as (m2 & e2 & E2).
  split; [rewrite E1; reflexivity|].
  unfold compareRows. rewrite E1, E2.
  destruct (sub_sign m1 e1 m2 e2) as [Hasc Hdesc].
  destruct (sub_sign m2 e2 m1 e1) as [Hasc' _].
  unfold dirNum. rewrite Hasc, Hdesc, Hasc', (cmp_antisym m1 e1 m2 e2).
  destruct (JS.cmp (JS.Finite m1 e1) (JS.Finite m2 e2)) as [c|] eqn:Ec.
  - exists c. repeat split.
  - unfold JS.cmp, JS.align in Ec. discriminate Ec.
Qed.

End MoreViewFacts.

Lemma relaxing_a_filter_keeps_rows_witness :
  In (withPriority 2 undatedRow)
     (Alarms.filtered (H:=Host.utc)
        (Alarms.setFPriority "2" (Alarms.setFSite "ahu"
           (Alarms.setRows [withPriority 2 undatedRow] Alarms.initialState))))
  /\ In (withPriority 2 undatedRow)
       (Alarms.filtered (H:=Host.utc)
          (Alarms.setFSite ""
             (Alarms.setFPriority "2" (Alarms.setFSite "ahu"
                (Alarms.setRows [withPriority 2 undatedRow] Alarms.initialState))))).
Proof.
  assert (Hs : In (withPriority 2 undatedRow)
     (Alarms.filtered (H:=Host.utc)
        (Alarms.setFPriority "2" (Alarms.setFSite "ahu"
           (Alarms.setRows [withPriority 2 undatedRow] Alarms.initialState)))))
    by (left; reflexivity).
  split; [exact Hs|].
  apply (relaxing_a_filter_keeps_rows (H:=Host.utc) _ _ Hs).
Defined.

Lemma invalid_dates_hide_rows_witness :
  JS.isNaN (Date_getTime (Platform := Host.utc) (Alarms.dateTimeISO undatedRow)) = true
  /\ JS.truthy (Alarms.fDateFrom (fromOnly "2024-01-01")) = true
  /\ Alarms.passes (H:=Host.utc) (fromOnly "2024-01-01") undatedRow = false.
Proof.
  split; [reflexivity|]. split; [reflexivity|].
  apply (invalid_dates_hide_rows (H:=Host.utc) (fromOnly "2024-01-01") undatedRow);
    [reflexivity|left; reflexivity].
Defined.

Lemma selectors_agree_with_request_witness :
  In (Alarms.mapRow (H:=Host.utc) (Alarms.ip69, Sample.b7))
     (Alarms.rows (fst (Alarms.fetchData (H:=Host.utc) Sample.bothUp None
                          (Alarms.setFAck Alarms.nao Alarms.initialState))))
  /\ Alarms.passTri Alarms.nao
       (Alarms.reconhecido (Alarms.mapRow (H:=Host.utc) (Alarms.ip69, Sample.b7)))
     = true.
Proof.
  assert (Hin : In (Alarms.mapRow (H:=Host.utc) (Alarms.ip69, Sample.b7))
     (Alarms.rows (fst (Alarms.fetchData (H:=Host.utc) Sample.bothUp None
                          (Alarms.setFAck Alarms.nao Alarms.initialState)))))
    by (right; right; right; left; reflexivity).
  split; [exact Hin|].
  apply (selectors_agree_with_request (H:=Host.utc) Sample.bothUp None
           (Alarms.setFAck Alarms.nao Alarms.initialState)
           (Alarms.mapRow (H:=Host.utc) (Alarms.ip69, Sample.b7))).
  - intros l [= <-]. reflexivity.
  - intros l [= <-]. reflexivity.
  - exact Hin.
Defined.

(** ** More on the scheduler *)

Section MoreSchedulerFacts.
Import Async Alarms.
Context `{Platform}.

Lemma exec_snoc (l : list Action) (a : Action) (s : Sys) :
  exec (l ++ [a]) s = step a (exec l s).
Proof. unfold exec. rewrite fold_left_app. reflexivity. Qed.

Lemma exec_app (l1 l2 : list Action) (s : Sys) :
  exec (l1 ++ l2) s = exec l2 (exec l1 s).
Proof. unfold exec. apply fold_left_app. Qed.

Lemma app_cons_not_nil_r (A : Type) (l : list A) (x : A) : (l ++ [x])%list <> [].
Proof. destruct l; discriminate. Qed.

Lemma step_keeps_bounds (a : Action) (s : Sys) :
  (1 <= secondsLeft (ui s) <= 60
   /\ (loading (ui s) = true -> running s <> [])
   /\ (interval s <> None -> autoRefresh (ui s) = true)) ->
  1 <= secondsLeft (ui (step a s)) <= 60
  /\ (loading (ui (step a s)) = true -> running (step a s) <> [])
  /\ (interval (step a s) <> None -> autoRefresh (ui (step a s)) = true).
Proof.
  intros (Hs & Hl & Hi).
  destruct a as [| | |c| |i w]; simpl.
  - destruct (autoRefresh (ui s)) eqn:Ea; simpl.
    + destruct (interval s); simpl; repeat split; try lia; auto;
        intros _; apply app_cons_not_nil_r.
    + repeat split; try lia; [intros _; apply app_cons_not_nil_r|congruence].
  - destruct (interval s) as [o|] eqn:Ei; [|auto].
    destruct (Z.leb_spec (secondsLeft (ui s)) 1); simpl; rewrite ?Ei;
      repeat split; try lia; auto; try (intros _; apply app_cons_not_nil_r);
      intros _; apply Hi; congruence.
  - destruct (loading (ui s)) eqn:El; simpl; [auto|].
    repeat split; try lia; auto; intros _; apply app_cons_not_nil_r.
  - destruct (Bool.eqb c (autoRefresh (ui s))); [auto|].
    destruct c; simpl.
    + destruct (interval s); simpl; auto.
    + repeat split; try lia; auto; congruence.
  - auto.
  - destruct (running s !! i) eqn:Er; [|auto].
    destruct (run (fetchBoth w o)) as [[e|l] tr]; simpl;
      repeat split; try lia; auto; discriminate.
Qed.

(** X15: in every state the component can reach, the countdown is
    between 1 and 60, [loading] is only set while some call of
    [fetchData] is running, and the interval only exists while
    auto-refresh is on. *)
Theorem reachable_bounds (ls : Storage) (l : list Action) :
  let s := exec l (init ls) in
  1 <= secondsLeft (ui s) <= 60
  /\ (loading (ui s) = true -> running s <> [])
  /\ (interval s <> None -> autoRefresh (ui s) = true).
Proof.
  induction l as [|a l IH] using rev_ind; simpl.
  - repeat split; try lia.
  - rewrite exec_snoc. apply step_keeps_bounds. exact IH.
Qed.

Lemma step_timer_iff_auto (a : Action) (s : Sys) :
  (interval s = None <-> autoRefresh (ui s) = false) ->
  (interval (step a s) = None <-> autoRefresh (ui (step a s)) = false).
Proof.
  intros Hi. destruct a as [| | |c| |i w]; simpl.
  - destruct (autoRefresh (ui s)) eqn:Ea; simpl.
    + destruct (interval s) eqn:Ei; simpl; rewrite ?Ea, ?Ei; split; discriminate.
    + rewrite Ea. tauto.
  - destruct (interval s) as [o|] eqn:Ei; [|rewrite Ei; exact Hi].
    destruct (secondsLeft (ui s) <=? 1); simpl; rewrite Ei; exact Hi.
  - destruct (loading (ui s)); simpl; exact Hi.
  - destruct (Bool.eqb c (autoRefresh (ui s))) eqn:Ec; [exact Hi|].
    destruct c; simpl.
    + destruct (interval s) eqn:Ei; simpl; rewrite ?Ei; split; discriminate.
    + tauto.
  - exact Hi.
  - destruct (running s !! i); [|exact Hi].
    destruct (run (fetchBoth w o)) as [[e|l] tr]; simpl; exact Hi.
Qed.

(** X16: once the component is mounted, the interval exists exactly
    while auto-refresh is on, whatever happens next. *)
Theorem timer_runs_iff_auto (ls : Storage) (l : list Action) :
  let s := exec (Mount :: l) (init ls) in
  interval s = None <-> autoRefresh (ui s) = false.
Proof.
  induction l as [|a l IH] using rev_ind.
  - simpl. split; discriminate.
  - simpl. change (Mount :: l ++ [a])%list with ((Mount :: l) ++ [a])%list.
    rewrite exec_snoc. apply step_timer_iff_auto. exact IH.
Qed.

Lemma ticks_while_paused (n : nat) (s : Sys) :
  interval s = None -> exec (repeat Tick n) s = s.
Proof.
  intros Hi. induction n as [|n IH]; [reflexivity|].
  simpl. rewrite Hi. exact IH.
Qed.

(** X17: switching auto-refresh off, letting any time pass, and
    switching it on again leaves the countdown where it was (it is not
    restarted) and starts no round; the new interval works with the
    filters of the moment. *)
Theorem pause_keeps_countdown (s : Sys) (n : nat)
  (Hauto : autoRefresh (ui s) = true) :
  let s' := exec (ToggleAuto false :: repeat Tick n ++ [ToggleAuto true]) s in
  secondsLeft (ui s') = secondsLeft (ui s)
  /\ running s' = running s
  /\ autoRefresh (ui s') = true
  /\ interval s' = Some (fetchData_opts (ui s))
  /\ interval (exec (ToggleAuto false :: repeat Tick n) s) = None.
Proof.
  intros s'. subst s'.
  change (ToggleAuto false :: repeat Tick n ++ [ToggleAuto true])%list
    with ((ToggleAuto false :: repeat Tick n) ++ [ToggleAuto true])%list.
  rewrite exec_snoc.
  assert (E : exec (ToggleAuto false :: repeat Tick n) s
              = withInterval None (withUi (setAutoRefresh false) s)).
  { change (exec (ToggleAuto false :: repeat Tick n) s)
      with (exec (repeat Tick n) (step (ToggleAuto false) s)).
    rewrite ticks_while_paused; simpl; rewrite Hauto; reflexivity. }
  rewrite E. repeat split.
Qed.

Lemma ticks_before_zero (k : nat) (s : Sys) (o : Opts) :
  interval s = Some o -> Z.of_nat k < secondsLeft (ui s) ->
  running (exec (repeat Tick k) s) = running s
  /\ interval (exec (repeat Tick k) s) = Some o
  /\ secondsLeft (ui (exec (repeat Tick k) s)) = secondsLeft (ui s) - Z.of_nat k
  /\ loading (ui (exec (repeat Tick k) s)) = loading (ui s)
  /\ filters (ui (exec (repeat Tick k) s)) = filters (ui s).
Proof.
  revert s. induction k as [|k IH]; intros s Hi Hs.
  - simpl. repeat split; try assumption. lia.
  - change (exec (repeat Tick (S k)) s) with (exec (repeat Tick k) (step Tick s)).
    assert (Est : step Tick s
                  = withUi (setSecondsLeft (secondsLeft (ui s) - 1)) s).
    { simpl. rewrite Hi. destruct (Z.leb_spec (secondsLeft (ui s)) 1); [lia|reflexivity]. }
    rewrite Est.
    destruct (IH (withUi (setSecondsLeft (secondsLeft (ui s) - 1)) s))
      as (R & I & S0 & L & F); [exact Hi|simpl; lia|].
    rewrite R, I, S0, L, F. simpl. repeat split. lia.
Qed.

(** X18: while the interval exists, with the countdown at [n], the
    first [n - 1] ticks only count down and start nothing; the [n]-th
    tick starts one round, with the options the interval was created
    with, sets [loading] and puts the countdown back to 60. *)
Theorem countdown_to_round (s : Sys) (o : Opts) (k : nat)
  (Hi : interval s = Some o) (Hs : 1 <= secondsLeft (ui s)) :
  (Z.of_nat k < secondsLeft (ui s) ->
   running (exec (repeat Tick k) s) = running s
   /\ secondsLeft (ui (exec (repeat Tick k) s)) = secondsLeft (ui s) - Z.of_nat k
   /\ loading (ui (exec (repeat Tick k) s)) = loading (ui s))
  /\ (Z.of_nat k = secondsLeft (ui s) ->
      running (exec (repeat Tick k) s) = (running s ++ [o])%list
      /\ secondsLeft (ui (exec (repeat Tick k) s)) = 60
      /\ loading (ui (exec (repeat Tick k) s)) = true).
Proof.
  split.
  - intros Hk. destruct (ticks_before_zero k s o Hi Hk) as (R & _ & S0 & L & _). auto.
  - intros Hk. destruct k as [|k]; [simpl in Hk; lia|].
    replace (repeat Tick (S k)) with (repeat Tick k ++ [Tick])%list
      by (symmetry; apply repeat_cons).
    rewrite exec_snoc.
    destruct (ticks_before_zero k s o Hi) as (R & I & S0 & L & _); [lia|].
    destruct (tick_at_zero (exec (repeat Tick k) s) o I) as [R' S']; [lia|].
    rewrite R', S', R. repeat split.
    simpl. rewrite I.
    destruct (Z.leb_spec (secondsLeft (ui (exec (repeat Tick k) s))) 1); [reflexivity|lia].
Qed.

Lemma step_without_timer (a : Action) (s : Sys) :
  noTimer a = true ->
  (interval s = None /\ (List.length (running s) <= 1)%nat
   /\ (loading (ui s) = false -> running s = [])) ->
  interval (step a s) = None /\ (List.length (running (step a s)) <= 1)%nat
  /\ (loading (ui (step a s)) = false -> running (step a s) = []).
Proof.
  intros Ha (Hi & Hn & Hl).
  destruct a as [| | |c| |i w]; simpl in Ha; try discriminate Ha.
  - simpl. rewrite Hi. tauto.
  - simpl. destruct (loading (ui s)) eqn:El; [rewrite ?El; tauto|].
    simpl. rewrite (Hl eq_refl). simpl. repeat split; [assumption|lia|discriminate].
  - destruct c; [discriminate Ha|]. simpl.
    destruct (autoRefresh (ui s)); simpl; repeat split; auto.
  - simpl. tauto.
  - simpl. destruct (running s !! i) as [o|] eqn:Er; [|tauto].
    destruct (run (fetchBoth w o)) as [res tr]. simpl.
    split; [assumption|].
    destruct (running s) as [|o1 [|o2 rest]]; simpl in *; [discriminate Er| |lia].
    destruct i; [|discriminate Er]. simpl. split; [lia|reflexivity].
Qed.

(** X19: without the interval at most one round runs at a time: from a
    state with no interval and at most one round running, the refresh
    button, the clear button, switching auto-refresh off and rounds
    settling never bring a second round next to a running one. *)
Theorem one_round_without_timer (s : Sys) (l : list Action)
  (Hi : interval s = None)
  (Hn : (List.length (running s) <= 1)%nat)
  (Hl : loading (ui s) = false -> running s = [])
  (Hl' : forallb noTimer l = true) :
  (List.length (running (exec l s)) <= 1)%nat
  /\ interval (exec l s) = None.
Proof.
  assert (J : interval (exec l s) = None
              /\ (List.length (running (exec l s)) <= 1)%nat
              /\ (loading (ui (exec l s)) = false -> running (exec l s) = [])).
  { induction l as [|a l IH] using rev_ind; [simpl; auto|].
    rewrite forallb_app in Hl'. apply andb_true_iff in Hl'.
    destruct Hl' as [Hl1 Hl2]. simpl in Hl2. apply andb_true_iff in Hl2.
    rewrite exec_snoc. apply step_without_timer; [tauto|]. apply IH. exact Hl1. }
  tauto.
Qed.

(** X20: a round started by the timer asks the backends with the
    acknowledged and discarded flags the filters had when the interval
    was created, not with the current ones: after the selectors are
    changed, the round that the 60th tick starts still has the flags of
    the first render, while the refresh button uses the new ones. *)
Theorem timer_round_uses_old_flags (ls : Storage) (w : World) (v d : Tri) :
  let s0 := exec [Mount; Settle 0 w] (init ls) in
  let s1 := withUi (setFDisc d) (withUi (setFAck v) s0) in
  running s1 = []
  /\ running (exec (repeat Tick 60) s1)
     = [{| isAcknowledged := None; isDiscarded := None |}]
  /\ running (step ClickRefresh s1)
     = [{| isAcknowledged := triOpt v; isDiscarded := triOpt d |}].
Proof.
  intros s0 s1.
  assert (E : running s1 = [] /\ loading (ui s1) = false
              /\ secondsLeft (ui s1) = 60
              /\ interval s1 = Some {| isAcknowledged := None; isDiscarded := None |}
              /\ fetchData_opts (ui s1)
                 = {| isAcknowledged := triOpt v; isDiscarded := triOpt d |}).
  { subst s1 s0. unfold exec. simpl.
    destruct (run (fetchBoth w _)) as [[e|l] tr]; simpl; repeat split. }
  destruct E as (R & L & S0 & I & O).
  split; [exact R|]. split.
  - destruct (countdown_to_round s1 _ 60 I) as [_ Hz]; [lia|].
    destruct Hz as (Hr & _); [rewrite S0; reflexivity|].
    rewrite Hr, R. reflexivity.
  - change (step ClickRefresh s1)
      with (if loading (ui s1) then s1 else start (fetchData_opts (ui s1)) s1).
    rewrite L, O. unfold start. cbn [running]. rewrite R. reflexivity.
Qed.

End MoreSchedulerFacts.

Lemma pause_keeps_countdown_witness :
  Alarms.autoRefresh
    (Alarms.ui (Alarms.step (H:=Host.utc) Alarms.Mount (Alarms.init None))) = true
  /\ Alarms.secondsLeft
       (Alarms.ui
          (Alarms.exec (H:=Host.utc)
             (Alarms.ToggleAuto false :: repeat Alarms.Tick 5 ++ [Alarms.ToggleAuto true])
             (Alarms.step (H:=Host.utc) Alarms.Mount (Alarms.init None))))
     = Alarms.secondsLeft
         (Alarms.ui (Alarms.step (H:=Host.utc) Alarms.Mount (Alarms.init None))).
Proof.
  split; [reflexivity|].
  apply (pause_keeps_countdown (H:=Host.utc)
           (Alarms.step (H:=Host.utc) Alarms.Mount (Alarms.init None)) 5).
  reflexivity.
Defined.

Lemma countdown_to_round_witness :
  Alarms.interval (Alarms.step (H:=Host.utc) Alarms.Mount (Alarms.init None))
  = Some (Alarms.fetchData_opts Alarms.initialState)
  /\ 1 <= Alarms.secondsLeft
            (Alarms.ui (Alarms.step (H:=Host.utc) Alarms.Mount (Alarms.init None)))
  /\ Z.of_nat 60
     = Alarms.secondsLeft
         (Alarms.ui (Alarms.step (H:=Host.utc) Alarms.Mount (Alarms.init None)))
  /\ Alarms.secondsLeft
       (Alarms.ui
          (Alarms.exec (H:=Host.utc) (repeat Alarms.Tick 60)
             (Alarms.step (H:=Host.utc) Alarms.Mount (Alarms.init None)))) = 60.
Proof.
  split; [reflexivity|]. split; [simpl; lia|]. split; [reflexivity|].
  apply (countdown_to_round (H:=Host.utc)
           (Alarms.step (H:=Host.utc) Alarms.Mount (Alarms.init None))
           (Alarms.fetchData_opts Alarms.initialState) 60);
    [reflexivity|simpl; lia|reflexivity].
Defined.

Lemma one_round_without_timer_witness :
  Alarms.interval
    (Alarms.exec (H:=Host.utc) [Alarms.Mount; Alarms.ToggleAuto false] (Alarms.init None))
  = None
  /\ forallb noTimer
       [Alarms.ClickRefresh; Alarms.Settle 0 Sample.bothUp; Alarms.ClickRefresh;
        Alarms.ClickRefresh] = true
  /\ (List.length
        (Alarms.running
           (Alarms.exec (H:=Host.utc)
              [Alarms.ClickRefresh; Alarms.Settle 0 Sample.bothUp; Alarms.ClickRefresh;
               Alarms.ClickRefresh]
              (Alarms.exec (H:=Host.utc) [Alarms.Mount; Alarms.ToggleAuto false]
                 (Alarms.init None)))) <= 1)%nat.
Proof.
  split; [reflexivity|]. split; [reflexivity|].
  apply (one_round_without_timer (H:=Host.utc)
           (Alarms.exec (H:=Host.utc) [Alarms.Mount; Alarms.ToggleAuto false]
              (Alarms.init None))
           [Alarms.ClickRefresh; Alarms.Settle 0 Sample.bothUp; Alarms.ClickRefresh;
            Alarms.ClickRefresh]).
  - reflexivity.
  - simpl. lia.
  - simpl. discriminate.
  - reflexivity.
Defined.

(** ** The single-backend component *)

Section SingleFacts.
Context `{Platform}.

Lemma errorText_not_empty (e : Async.Exn) : Single.errorText e <> "".
Proof.
  unfold Single.errorText. destruct (Async.message e); simpl; discriminate.
Qed.

(** X21: in the single-backend component a round whose login or
    retrieval fails leaves the rows and the comments of the previous
    round in place and shows an error text, which is never empty; the
    token of a login that worked is kept even when the retrieval then
    fails.  Only a round where both calls return replaces the rows and
    leaves the error empty.  Every round ends with [loading] cleared
    and the countdown at 60, and touches neither filters nor sort. *)
Theorem single_round_outcome (w : Single.World) (ls : Alarms.Storage)
  (st : Single.State) :
  let st' := Single.fetchData w ls st in
  let o := Single.fetchData_opts st in
  (Single.loading st' = false /\ Single.secondsLeft st' = 60
   /\ Single.filters st' = Single.filters st
   /\ Single.sortKey st' = Single.sortKey st
   /\ Single.sortDir st' = Single.sortDir st)
  /\ (forall e, Single.login w "api" "GMX3-Rel.10" = Single.Thrown e ->
        Single.rows st' = Single.rows st
        /\ Single.comments st' = Single.comments st
        /\ Single.token st' = Single.token st
        /\ Single.err st' = Single.errorText e /\ Single.err st' <> "")
  /\ (forall t e, Single.login w "api" "GMX3-Rel.10" = Single.Returned t ->
        Single.getAlarms w t o = Single.Thrown e ->
        Single.rows st' = Single.rows st
        /\ Single.comments st' = Single.comments st
        /\ Single.token st' = t
        /\ Single.err st' = Single.errorText e /\ Single.err st' <> "")
  /\ (forall t data, Single.login w "api" "GMX3-Rel.10" = Single.Returned t ->
        Single.getAlarms w t o = Single.Returned data ->
        Single.rows st' = map Single.mapRow (Api.items data)
        /\ Single.token st' = t
        /\ Single.err st' = "").
Proof.
  intros st' o. subst st' o. unfold Single.fetchData.
  split.
  { destruct (Single.login w "api" "GMX3-Rel.10") as [e|t]; [repeat split|].
    destruct (Single.getAlarms w t _); repeat split. }
  split; [|split].
  - intros e ->. simpl. repeat split. apply errorText_not_empty.
  - intros t e -> ->. simpl. repeat split. apply errorText_not_empty.
  - intros t data -> ->. repeat split.
Qed.

(** X22: in the single-backend component too, a click on a column
    header makes it the sort column, ascending when it was not the sort
    column, and every further click on it reverses the direction; the
    filters and the rows are left as they are. *)
Theorem single_onSort_cycle (k : Single.SortKey) (st : Single.State) :
  Single.sortKey (Single.onSort k st) = k
  /\ (Single.sortKey st <> k -> Single.sortDir (Single.onSort k st) = Single.asc)
  /\ Single.sortKey (Single.onSort k (Single.onSort k st)) = k
  /\ Single.sortDir (Single.onSort k (Single.onSort k st))
     <> Single.sortDir (Single.onSort k st)
  /\ Single.filters (Single.onSort k st) = Single.filters st
  /\ Single.rows (Single.onSort k st) = Single.rows st.
Proof.
  assert (Hk : Single.sortKey (Single.onSort k st) = k).
  { unfold Single.onSort.
    destruct (decide (Single.sortKey st = k)); [assumption|reflexivity]. }
  split; [exact Hk|]. split.
  { intros Hne. unfold Single.onSort. rewrite decide_False by exact Hne. reflexivity. }
  assert (H2 : Single.onSort k (Single.onSort k st)
               = Single.setSortDir
                   (match Single.sortDir (Single.onSort k st) with
                    | Single.asc => Single.desc
                    | Single.desc => Single.asc
                    end) (Single.onSort k st)).
  { unfold Single.onSort at 1. rewrite decide_True by exact Hk. reflexivity. }
  split; [rewrite H2; exact Hk|].
  split; [rewrite H2; simpl;
          destruct (Single.sortDir (Single.onSort k st)); discriminate|].
  unfold Single.onSort. destruct (decide (Single.sortKey st = k)); split; reflexivity.
Qed.

End SingleFacts.

Lemma single_round_outcome_witness :
  Single.login singleDown "api" "GMX3-Rel.10"
  = Single.Thrown (Async.Error "Falha no login (503): Service Unavailable")
  /\ Single.err (Single.fetchData (H:=Host.utc) singleDown None sortedBySite)
     = "Falha no login (503): Service Unavailable"
  /\ Single.rows (Single.fetchData (H:=Host.utc) singleDown None sortedBySite)
     = Single.rows sortedBySite.
Proof.
  split; [reflexivity|].
  destruct (single_round_outcome (H:=Host.utc) singleDown None sortedBySite)
    as (_ & Hfail & _).
  destruct (Hfail (Async.Error "Falha no login (503): Service Unavailable") eq_refl)
    as (Hr & _ & _ & He & _).
  split; [exact He|exact Hr].
Defined.

(** ** The URLs and the development proxies *)

Section UrlFacts.
Import Async Alarms.

(** X23: the URL of the alarm list tells the backend and the two
    selectors apart: two requests have the same URL only when they go
    to the same prefix with the same options.  With both selectors on
    'all' the only parameter is the page size, 500. *)
Theorem alarmsUrl_injective (p p' : ApiPrefix) (o o' : Opts) :
  (alarmsUrl p o = alarmsUrl p' o' -> p = p' /\ o = o')
  /\ alarmsUrl p {| isAcknowledged := None; isDiscarded := None |}
     = prefixPath p ++ "/v3/alarms/?pageSize=500".
Proof.
  split; [|destruct p; reflexivity].
  destruct p, p', o as [[[|]|] [[|]|]], o' as [[[|]|] [[|]|]];
    vm_compute; intros E; try discriminate E; split; reflexivity.
Qed.

Lemma prefix_app (p rest : string) : String.prefix p (p ++ rest) = true.
Proof.
  induction p as [|c p IH]; [destruct rest; reflexivity|].
  change (String.prefix (String c p) (String c p ++ rest))
    with (if ascii_dec c c then String.prefix p (p ++ rest) else false).
  destruct (ascii_dec c c); [exact IH|contradiction].
Qed.

Lemma stripPrefix_app (p rest : string) : Vite.stripPrefix p (p ++ rest) = Some rest.
Proof.
  induction p as [|c p IH]; [reflexivity|].
  change (Vite.stripPrefix (String c p) (String c p ++ rest))
    with (if Ascii.eqb c c then Vite.stripPrefix p (p ++ rest) else None).
  rewrite Ascii.eqb_refl. exact IH.
Qed.

Lemma append_assoc (a b c : string) : (a ++ b) ++ c = a ++ (b ++ c).
Proof.
  induction a as [|x a IH]; [reflexivity|].
  change (String x ((a ++ b) ++ c) = String x (a ++ (b ++ c))). rewrite IH. reflexivity.
Qed.

(** X24: the development proxy sends every request made under the
    prefix of a backend to the address that the rows of that backend
    carry in their ids, with the prefix turned into /api: the login and
    the alarm list of both prefixes reach the very paths that the
    single-backend component asks for, which its own proxy passes on
    unchanged to 10.2.1.100. *)
Theorem proxy_reaches_tagged_backend (f : FromIp) (rest : string) (o : Opts) :
  Vite.route Vite.proxyTwo (prefixPath (prefixOf f) ++ rest)
  = Some ("https://" ++ fromIpStr f, "/api" ++ rest)
  /\ Vite.route Vite.proxyTwo (loginUrl (prefixOf f))
     = Some ("https://" ++ fromIpStr f, Single.loginUrl)
  /\ Vite.route Vite.proxyTwo (alarmsUrl (prefixOf f) o)
     = Some ("https://" ++ fromIpStr f, Single.alarmsUrl o)
  /\ Vite.route Vite.proxyOne Single.loginUrl
     = Some ("https://" ++ fromIpStr ip100, Single.loginUrl)
  /\ Vite.route Vite.proxyOne (Single.alarmsUrl o)
     = Some ("https://" ++ fromIpStr ip100, Single.alarmsUrl o).
Proof.
  assert (Hr : forall r, Vite.route Vite.proxyTwo (prefixPath (prefixOf f) ++ r)
                         = Some ("https://" ++ fromIpStr f, "/api" ++ r)).
  { intros r. destruct f; unfold Vite.route, Vite.proxyTwo; cbn [Vite.context
      Vite.target Vite.rewrite prefixOf prefixPath fromIpStr].
    - replace (String.prefix "/api69" ("/api100" ++ r)) with false by reflexivity.
      rewrite prefix_app. unfold Vite.replacePrefix. rewrite stripPrefix_app.
      reflexivity.
    - rewrite prefix_app. unfold Vite.replacePrefix. rewrite stripPrefix_app.
      reflexivity. }
  split; [apply Hr|].
  split; [unfold loginUrl; apply Hr|].
  split; [unfold alarmsUrl; apply Hr|].
  split; [reflexivity|].
  unfold Single.alarmsUrl.
  change "/api/v3/alarms/" with ("/api/v3" ++ "/alarms/").
  rewrite append_assoc.
  unfold Vite.route, Vite.proxyOne; cbn [Vite.context Vite.target Vite.rewrite].
  rewrite prefix_app. reflexivity.
Qed.

End UrlFacts.

(** ** A round and what was on screen before *)

Section RoundAgainFacts.
Import Async Alarms.
Context `{Platform}.

(** X25: what a round leaves depends on the state before it only
    through the filters, the sort and the auto-refresh switch: rows,
    comments, status and countdown of before play no part.  So a second
    round that gets the same answers and finds the same localStorage
    changes nothing. *)
Theorem round_forgets_the_past (w : World) (ls : Storage) (st1 st2 : State)
  (Hf : filters st1 = filters st2)
  (Hk : sortKey st1 = sortKey st2)
  (Hd : sortDir st1 = sortDir st2)
  (Ha : autoRefresh st1 = autoRefresh st2) :
  fetchData w ls st1 = fetchData w ls st2
  /\ fetchData w ls (fst (fetchData w ls st1)) = fetchData w ls st1.
Proof.
  assert (Hsame : forall a b, filters a = filters b -> sortKey a = sortKey b ->
                    sortDir a = sortDir b -> autoRefresh a = autoRefresh b ->
                    fetchData w ls a = fetchData w ls b).
  { intros a b E1 E2 E3 E4. rewrite !fetchData_run.
    assert (Ho : fetchData_opts a = fetchData_opts b)
      by (unfold fetchData_opts; rewrite E1; reflexivity).
    rewrite Ho. f_equal.
    destruct a, b. cbn [filters sortKey sortDir autoRefresh] in E1, E2, E3, E4.
    subst. reflexivity. }
  split; [apply Hsame; assumption|].
  apply Hsame; rewrite fetchData_run; reflexivity.
Qed.

End RoundAgainFacts.

Lemma round_forgets_the_past_witness :
  Alarms.filters (Alarms.setRows [undatedRow] Alarms.initialState)
  = Alarms.filters Alarms.initialState
  /\ Alarms.fetchData (H:=Host.utc) Sample.only100 None
       (Alarms.setRows [undatedRow] Alarms.initialState)
     = Alarms.fetchData (H:=Host.utc) Sample.only100 None Alarms.initialState.
Proof.
  split; [reflexivity|].
  apply (round_forgets_the_past (H:=Host.utc) Sample.only100 None
           (Alarms.setRows [undatedRow] Alarms.initialState) Alarms.initialState);
    reflexivity.
Defined.
